(** * Redaction-session service: a model of [main.py] and its proofs

    The development embeds the four HTTP endpoints of [main.py]
    ([redact_llm_endpoint], [redact_classic_endpoint], [decrypt_endpoint],
    [unredact_endpoint]) together with the parts of the Python runtime they
    call: [base64.urlsafe_b64encode] / [urlsafe_b64decode], [str.encode] /
    [bytes.decode], and the Redis commands [SET key value EX ttl] and
    [GET key] issued through [core/redis_client.py]. *)

From Stdlib Require Import NArith ZArith Ascii String List Bool Lia.
From Stdlib Require Import Init.Byte.
From Stdlib Require Import QArith_base.
From stdpp Require Import base option gmap strings list.

Local Open Scope N_scope.

(** ** Python values: [bytes], [str] and exceptions *)

(** A Python [bytes] object: an immutable sequence of integers in
    [range(256)]. *)
Abbreviation bytes := (list byte) (only parsing).

(** A Python [str].  The model keeps the code points below 256; characters
    numbered 128 and above are the non-ASCII ones. *)
Abbreviation str := string (only parsing).

Inductive exn_class :=
  | ValueError
  | BinasciiError       (* binascii.Error, a subclass of ValueError *)
  | UnicodeError        (* UnicodeEncodeError / UnicodeDecodeError, subclasses of ValueError *)
  | ConnectionError     (* redis.exceptions.ConnectionError *)
  | NameError           (* a name that is bound nowhere *)
  | OSError             (* OSError and its subclasses, such as FileNotFoundError *)
  | OtherError.         (* any other subclass of Exception *)

Record exn := Raise { exn_cls : exn_class; exn_msg : str }.

(** [isinstance(e, ValueError)], the test made by [except ValueError]. *)
Definition is_ValueError (e : exn) : bool :=
  match exn_cls e with
  | ValueError | BinasciiError | UnicodeError => true
  | ConnectionError | NameError | OSError | OtherError => false
  end.

(** The outcome of a Python call: it raises or it returns. *)
Inductive result (A : Type) :=
  | Raised (e : exn)
  | Returned (a : A).
Arguments Raised {A} e.
Arguments Returned {A} a.

Definition byte_of_N (n : N) : byte :=
  match Byte.of_N (n mod 256) with
  | Some b => b
  | None => x00
  end.

Definition chr (n : N) : ascii := ascii_of_N (n mod 256).
Definition ord (c : ascii) : N := N_of_ascii c.

(** [str.encode('ascii')] *)
Fixpoint encode_ascii (s : str) : result bytes :=
  match s with
  | EmptyString => Returned []
  | String c s' =>
      if 128 <=? ord c
      then Raised (Raise UnicodeError "'ascii' codec can't encode character")
      else match encode_ascii s' with
           | Raised e => Raised e
           | Returned bs => Returned (byte_of_N (ord c) :: bs)
           end
  end.

(** [str.encode('utf-8')]: one byte below 128, two bytes from 128 to 255. *)
Fixpoint encode_utf8 (s : str) : bytes :=
  match s with
  | EmptyString => []
  | String c s' =>
      let n := ord c in
      if n <? 128 then byte_of_N n :: encode_utf8 s'
      else byte_of_N (N.lor 192 (N.shiftr n 6))
           :: byte_of_N (N.lor 128 (N.land n 63)) :: encode_utf8 s'
  end.

(** [bytes.decode('utf-8')] on one- and two-byte sequences; a sequence that
    is ill-formed, or that denotes a code point outside the model, raises. *)
Fixpoint decode_utf8 (bs : bytes) : result str :=
  match bs with
  | [] => Returned EmptyString
  | b :: bs' =>
      let n := Byte.to_N b in
      if n <? 128 then
        match decode_utf8 bs' with
        | Raised e => Raised e
        | Returned s => Returned (String (chr n) s)
        end
      else
        match bs' with
        | b2 :: bs'' =>
            let m := Byte.to_N b2 in
            if ((n =? 194) || (n =? 195)) && (128 <=? m) && (m <? 192) then
              match decode_utf8 bs'' with
              | Raised e => Raised e
              | Returned s =>
                  Returned (String (chr (N.lor (N.shiftl (N.land n 3) 6) (N.land m 63))) s)
              end
            else Raised (Raise UnicodeError "'utf-8' codec can't decode byte")
        | [] => Raised (Raise UnicodeError "'utf-8' codec can't decode byte")
        end
  end.

(** ** [binascii] and [base64] *)

Module binascii.

Definition table_b2a_base64 : list ascii :=
  list_ascii_of_string
    "ABCDEFGHIJKLMNOPQRSTUVWXYZabcdefghijklmnopqrstuvwxyz0123456789+/".

Definition BASE64_PAD : byte := "=".

(** The character of a six-bit value. *)
Definition b2a (v : N) : byte :=
  byte_of_ascii (nth (N.to_nat (N.land v 63)) table_b2a_base64 "A"%char).

(** The six-bit value of a character, [None] outside the alphabet
    (entries of [table_a2b_base64] that are not below 64). *)
Definition table_a2b_base64 (c : byte) : option N :=
  let n := Byte.to_N c in
  if (65 <=? n) && (n <=? 90) then Some (n - 65)
  else if (97 <=? n) && (n <=? 122) then Some (n - 71)
  else if (48 <=? n) && (n <=? 57) then Some (n + 4)
  else if n =? 43 then Some 62
  else if n =? 47 then Some 63
  else None.

(** [b2a_base64(data, newline=False)]: three bytes give four characters;
    a final group of one or two bytes is padded with [=]. *)
Fixpoint b2a_base64 (data : bytes) : bytes :=
  match data with
  | [] => []
  | [x] =>
      let a := Byte.to_N x in
      [b2a (N.shiftr a 2); b2a (N.shiftl (N.land a 3) 4);
       BASE64_PAD; BASE64_PAD]
  | [x; y] =>
      let a := Byte.to_N x in
      let b := Byte.to_N y in
      [b2a (N.shiftr a 2);
       b2a (N.lor (N.shiftl (N.land a 3) 4) (N.shiftr b 4));
       b2a (N.shiftl (N.land b 15) 2);
       BASE64_PAD]
  | x :: y :: z :: rest =>
      let a := Byte.to_N x in
      let b := Byte.to_N y in
      let c := Byte.to_N z in
      b2a (N.shiftr a 2)
      :: b2a (N.lor (N.shiftl (N.land a 3) 4) (N.shiftr b 4))
      :: b2a (N.lor (N.shiftl (N.land b 15) 2) (N.shiftr c 6))
      :: b2a (N.land c 63)
      :: b2a_base64 rest
  end.

(** The decoding loop of [a2b_base64] with [strict_mode] off.  The state
    is [quad_pos], [leftchar], [pads] and the bytes written so far.
    Characters outside the alphabet are skipped; a pad sequence that
    completes a quad stops the scan.  The message of the first error
    leaves out the count of characters. *)
Fixpoint a2b_loop (ascii_data : bytes) (quad_pos leftchar pads : N)
         (bin_data : bytes) : result bytes :=
  match ascii_data with
  | [] =>
      if quad_pos =? 0 then Returned bin_data
      else if quad_pos =? 1 then
        Raised (Raise BinasciiError
          "Invalid base64-encoded string: number of data characters cannot be 1 more than a multiple of 4")
      else Raised (Raise BinasciiError "Incorrect padding")
  | this_ch :: more =>
      if Byte.eqb this_ch BASE64_PAD then
        if 2 <=? quad_pos then
          if 4 <=? quad_pos + (pads + 1) then Returned bin_data
          else a2b_loop more quad_pos leftchar (pads + 1) bin_data
        else a2b_loop more quad_pos leftchar pads bin_data
      else
        match table_a2b_base64 this_ch with
        | None => a2b_loop more quad_pos leftchar pads bin_data
        | Some v =>
            if quad_pos =? 0 then a2b_loop more 1 v 0 bin_data
            else if quad_pos =? 1 then
              a2b_loop more 2 (N.land v 15) 0
                (bin_data ++ [byte_of_N (N.lor (N.shiftl leftchar 2) (N.shiftr v 4))])
            else if quad_pos =? 2 then
              a2b_loop more 3 (N.land v 3) 0
                (bin_data ++ [byte_of_N (N.lor (N.shiftl leftchar 4) (N.shiftr v 2))])
            else
              a2b_loop more 0 0 0
                (bin_data ++ [byte_of_N (N.lor (N.shiftl leftchar 6) v)])
        end
  end.

Definition a2b_base64 (data : bytes) : result bytes :=
  a2b_loop data 0 0 0 [].

End binascii.

Module base64.

(** [bytes.translate] with [_urlsafe_encode_translation]: [+/] to [-_]. *)
Definition urlsafe_encode_translation (c : byte) : byte :=
  if Byte.eqb c "+" then "-"%byte
  else if Byte.eqb c "/" then "_"%byte else c.

(** [bytes.translate] with [_urlsafe_decode_translation]: [-_] to [+/]. *)
Definition urlsafe_decode_translation (c : byte) : byte :=
  if Byte.eqb c "-" then "+"%byte
  else if Byte.eqb c "_" then "/"%byte else c.

Definition b64encode (s : bytes) : bytes := binascii.b2a_base64 s.

Definition b64decode (s : bytes) : result bytes := binascii.a2b_base64 s.

Definition urlsafe_b64encode (s : bytes) : bytes :=
  map urlsafe_encode_translation (b64encode s).

(** [urlsafe_b64decode] applied to a [str]: [_bytes_from_decode_data]
    encodes it as ASCII (a [ValueError] on a non-ASCII character), the
    alphabet is translated back, and [b64decode] runs unvalidated. *)
Definition urlsafe_b64decode (s : str) : result bytes :=
  match encode_ascii s with
  | Raised _ =>
      Raised (Raise ValueError "string argument should contain only ASCII characters")
  | Returned bs => b64decode (map urlsafe_decode_translation bs)
  end.

End base64.

(** [urlsafe_b64encode(key).decode('utf-8')], the value of the
    [X-Decryption-Key] header. *)
Definition encode_key (key : bytes) : result str :=
  decode_utf8 (base64.urlsafe_b64encode key).


(** ** Path and string helpers of the Python library *)

Definition starts_with (p s : str) : bool := String.prefix p s.

Fixpoint ends_with_slash (s : str) : bool :=
  match s with
  | EmptyString => false
  | String c EmptyString => Ascii.eqb c "/"
  | String _ s' => ends_with_slash s'
  end.

(** [os.path.join(a, b)] on POSIX. *)
Definition path_join (a b : str) : str :=
  if starts_with "/" b then b
  else if String.eqb a "" || ends_with_slash a then a ++ b
  else a ++ "/" ++ b.

(** [os.path.basename(p)]: what follows the last slash. *)
Fixpoint basename_from (p acc : str) : str :=
  match p with
  | EmptyString => acc
  | String c p' =>
      if Ascii.eqb c "/" then basename_from p' EmptyString
      else basename_from p' (acc ++ String c EmptyString)
  end.

Definition basename (p : str) : str := basename_from p EmptyString.

(** [s.replace(old, '')] for a non-empty [old]: the occurrences are found
    from the left and do not overlap; [skip] counts the characters of a
    found occurrence still to drop. *)
Fixpoint remove_all_from (old s : str) (skip : nat) : str :=
  match s with
  | EmptyString => EmptyString
  | String c s' =>
      match skip with
      | S k => remove_all_from old s' k
      | O =>
          if starts_with old s
          then remove_all_from old s' (Nat.pred (String.length old))
          else String c (remove_all_from old s' O)
      end
  end.

Definition str_remove (old s : str) : str := remove_all_from old s O.

(** ** The data model *)

(** A coordinate of a bounding box.  The endpoints carry coordinates and
    never compute with them; a finite Python [float] is kept as the
    rational number it denotes. *)
Abbreviation coordinate := Q (only parsing).

(** One stored item: [{"encrypted_text": ..., "bbox": [x0, y0, x1, y1]}]. *)
Record PiiItem := { encrypted_text : str; bbox : list coordinate }.

(** The pydantic model [DecryptedPiiItem]. *)
Record DecryptedPiiItem := { text : str; item_bbox : list coordinate }.

(** A Python [dict] from page identifier to a list, in insertion order. *)
Abbreviation page_dict A := (list (str * list A)) (only parsing).

(** [d[k] = v] on an insertion-ordered dict. *)
Fixpoint dict_set {A : Type} (k : str) (v : A) (d : list (str * A)) : list (str * A) :=
  match d with
  | [] => [(k, v)]
  | (k', v') :: d' =>
      if String.eqb k k' then (k, v) :: d' else (k', v') :: dict_set k v d'
  end.

(** The metadata dict of a session: either [{}] ([pages = None]) or
    [{"pages": {...}}]. *)
Record Metadata := { pages : option (page_dict PiiItem) }.

(** The truth value of the metadata object an engine returns: Python's
    [None] and the empty dict are false. *)
Definition truthy (encrypted_metadata : option Metadata) : bool :=
  match encrypted_metadata with
  | None => false
  | Some md => match pages md with None => false | Some _ => true end
  end.

(** [encrypted_data.get("pages", {})] *)
Definition get_pages (md : Metadata) : page_dict PiiItem :=
  match pages md with
  | Some ps => ps
  | None => []
  end.

(** The JSON text of a metadata dict.  A text is identified with the value
    it denotes: [json.loads(json.dumps(md))] is [md]. *)
Record json_text := json_dumps { json_loads : Metadata }.

(** The pydantic model [DecryptionResponse]. *)
Record DecryptionResponse := {
  resp_document_id : str;
  resp_pages : page_dict DecryptedPiiItem
}.

Record UploadFile := {
  filename : str;
  content_type : str;
  file_content : bytes
}.

Record FileResponse := {
  path : str;
  media_type : str;
  download_name : str;                 (* the [filename=] argument *)
  headers : list (str * str)
}.

(** What an endpoint call ends in: a response, an [HTTPException], or an
    exception that escapes the endpoint (the framework answers 500). *)
Inductive reply (A : Type) :=
  | Respond (a : A)
  | HTTPException (status_code : Z) (detail : str)
  | Unhandled (e : exn).
Arguments Respond {A} a.
Arguments HTTPException {A} status_code detail.
Arguments Unhandled {A} e.

(** ** The collaborators in [core.engine] and [core.security]

    [main.py] imports [process_document_llm], [process_document_classic],
    [unredact_document] and [decrypt_text]; the engines act on the file
    system and return or raise. *)
Class Core := {
  process_document_llm :
    gmap string (list byte) -> str -> Z -> bytes ->
    gmap string (list byte) * result (str * option Metadata);
  process_document_classic :
    gmap string (list byte) -> str -> Z -> bytes ->
    gmap string (list byte) * result (str * option Metadata);
  unredact_document :
    gmap string (list byte) -> str -> bytes -> Metadata ->
    gmap string (list byte) * result str;
  decrypt_text : bytes -> bytes -> result str
}.

(** ** The world an endpoint runs in

    The clock counts seconds.  [redis_db] is the content of the Redis
    server, each value with the instant at which it expires.
    [ENCRYPTED_DATA_STORE] is what the global name that [decrypt_endpoint]
    reads is bound to: [None] when the name is not bound, which is the
    state of [main.py], where no statement binds, imports or assigns it. *)

Record World := {
  clock : N;                                   (* seconds *)
  redis_up : bool;                             (* does the next command reach the server *)
  redis_db : gmap string (json_text * N);      (* key -> value, instant of expiry *)
  ENCRYPTED_DATA_STORE : option (gmap string Metadata); (* the global of that name *)
  files : gmap string (list byte)              (* path -> content *)
}.

Definition with_files (fs : gmap string (list byte)) (w : World) : World :=
  {| clock := clock w; redis_up := redis_up w; redis_db := redis_db w;
     ENCRYPTED_DATA_STORE := ENCRYPTED_DATA_STORE w; files := fs |}.

Definition with_db (db : gmap string (json_text * N)) (w : World) : World :=
  {| clock := clock w; redis_up := redis_up w; redis_db := db;
     ENCRYPTED_DATA_STORE := ENCRYPTED_DATA_STORE w; files := files w |}.

(** Time passes. *)
Definition elapse (dt : N) (w : World) : World :=
  {| clock := clock w + dt; redis_up := redis_up w; redis_db := redis_db w;
     ENCRYPTED_DATA_STORE := ENCRYPTED_DATA_STORE w; files := files w |}.

(** The connection to the server comes or goes. *)
Definition set_redis_up (up : bool) (w : World) : World :=
  {| clock := clock w; redis_up := up; redis_db := redis_db w;
     ENCRYPTED_DATA_STORE := ENCRYPTED_DATA_STORE w; files := files w |}.

(** The part of a path before its last slash, [None] without a slash. *)
Fixpoint parent_of (p : str) : option str :=
  match p with
  | EmptyString => None
  | String c p' =>
      match parent_of p' with
      | Some d => Some (String c d)
      | None => if Ascii.eqb c "/" then Some EmptyString else None
      end
  end.

(** The directories of the file system: the two that [os.makedirs] makes
    when [main.py] is loaded.  Nothing in [main.py] makes another. *)
Definition is_directory (d : str) : bool :=
  String.eqb d "temp_uploads" || String.eqb d "redacted_files".

Fixpoint has_nul (p : str) : bool :=
  match p with
  | EmptyString => false
  | String c p' => (ord c =? 0) || has_nul p'
  end.

(** What [open(p, "wb")] raises, if it raises: [ValueError] on a NUL
    character; an [OSError] when the path does not name a file directly
    inside an existing directory (a file name with a slash in it leads to
    a directory that does not exist), or when the file name is empty or
    longer than 255 bytes. *)
Definition open_wb_error (p : str) : option exn :=
  if has_nul p then Some (Raise ValueError "embedded null byte")
  else
    match parent_of p with
    | None => Some (Raise OSError "No such file or directory")
    | Some d =>
        if negb (is_directory d)
        then Some (Raise OSError "No such file or directory")
        else if String.eqb (basename p) ""
        then Some (Raise OSError "Is a directory")
        else if (255 <? length (encode_utf8 (basename p)))%nat
        then Some (Raise OSError "File name too long")
        else None
    end.

(** The world once the upload is written at [p]. *)
Definition saved (p : str) (f : UploadFile) (w : World) : World :=
  with_files (<[p := file_content f]> (files w)) w.

(** [with open(p, "wb") as buffer: shutil.copyfileobj(file.file, buffer)] *)
Definition save_upload (p : str) (f : UploadFile) (w : World) : result World :=
  match open_wb_error p with
  | Some e => Raised e
  | None => Returned (saved p f w)
  end.

Module redis_client.

Definition connection_error : exn :=
  Raise ConnectionError "Error connecting to Redis.".

(** [redis_client.set(key, value, ex=ttl)]: the value replaces any entry
    and expires [ttl] seconds from now. *)
Definition set (key : str) (value : json_text) (ex : N) (w : World) : result World :=
  if redis_up w
  then Returned (with_db (<[key := (value, clock w + ex)]> (redis_db w)) w)
  else Raised connection_error.

(** [redis_client.get(key)]: the value, or [None] when the key is absent
    or its time to live has run out. *)
Definition get (key : str) (w : World) : result (option json_text) :=
  if redis_up w
  then Returned
         match redis_db w !! key with
         | Some (value, expires_at) =>
             if clock w <? expires_at then Some value else None
         | None => None
         end
  else Raised connection_error.

End redis_client.

(** [cleanup_files(files)]: every listed path that exists is removed. *)
Fixpoint cleanup_files (paths : list str) (fs : gmap string (list byte))
  : gmap string (list byte) :=
  match paths with
  | [] => fs
  | file_path :: more =>
      match fs !! file_path with
      | Some _ => cleanup_files more (delete file_path fs)
      | None => cleanup_files more fs
      end
  end.

(** An endpoint call: the world it leaves, the calls of
    [background_tasks.add_task(cleanup_files, ...)] it made, in order, and
    its reply. *)
Record Outcome (A : Type) := {
  world_after : World;
  background_tasks : list (list str);
  answer : reply A
}.
Arguments world_after {A} _.
Arguments background_tasks {A} _.
Arguments answer {A} _.

Definition TEMP_UPLOADS_DIR : str := "temp_uploads".
Definition REDACTED_FILES_DIR : str := "redacted_files".

(** ** Requests *)

(** A call of a redaction endpoint.  The three values the endpoint draws,
    two [uuid.uuid4()] and one [generate_key()], come with the request. *)
Record RedactRequest := {
  file : UploadFile;
  severity : Z;
  drawn_filename_uuid : str;
  drawn_key : bytes;
  drawn_document_id : str
}.

(** The pydantic model [DecryptionRequest]. *)
Record DecryptionRequest := {
  document_id : str;
  decryption_key : str
}.

(** A call of [unredact_endpoint], with the [uuid.uuid4()] it draws. *)
Record UnredactRequest := {
  redacted_file : UploadFile;
  form_document_id : str;
  form_decryption_key : str;
  drawn_upload_uuid : str
}.

(** ** The endpoints of [main.py] *)

Section Endpoints.

Context `{Core}.

(** The body shared by [redact_llm_endpoint] and
    [redact_classic_endpoint]; the two differ in the engine called. *)
Definition redact_with
    (process_document :
       gmap string (list byte) -> str -> Z -> bytes ->
       gmap string (list byte) * result (str * option Metadata))
    (w : World) (rq : RedactRequest) : Outcome FileResponse :=
  let unique_filename := (drawn_filename_uuid rq ++ "_" ++ filename (file rq))%string in
  let input_path := path_join TEMP_UPLOADS_DIR unique_filename in
  match save_upload input_path (file rq) w with
  | Raised e => {| world_after := w; background_tasks := []; answer := Unhandled e |}
  | Returned w1 =>
  let key := drawn_key rq in
  let document_id := drawn_document_id rq in
  let failed (w' : World) (tasks : list (list str)) (e : exn) :=
    {| world_after := w';
       background_tasks := tasks ++ [[input_path]];
       answer := HTTPException 500 ("An error occurred: " ++ exn_msg e) |} in
  match process_document (files w1) input_path (severity rq) key with
  | (fs, Raised e) => failed (with_files fs w1) [] e
  | (fs, Returned (redacted_file_path, encrypted_metadata)) =>
      let w2 := with_files fs w1 in
      let stored :=
        match encrypted_metadata with
        | Some md =>
            if truthy encrypted_metadata
            then redis_client.set document_id (json_dumps md) 86400 w2
            else Returned w2
        | None => Returned w2
        end in
      match stored with
      | Raised e => failed w2 [] e
      | Returned w3 =>
          let tasks := [[input_path; redacted_file_path]] in
          match encode_key key with
          | Raised e => failed w3 tasks e
          | Returned key_b64 =>
              {| world_after := w3;
                 background_tasks := tasks;
                 answer := Respond
                   {| path := redacted_file_path;
                      media_type := content_type (file rq);
                      download_name := basename redacted_file_path;
                      headers := [("X-Document-ID"%string, document_id);
                                  ("X-Decryption-Key"%string, key_b64)] |} |}
          end
      end
  end
  end.

Definition redact_llm_endpoint : World -> RedactRequest -> Outcome FileResponse :=
  redact_with process_document_llm.

Definition redact_classic_endpoint : World -> RedactRequest -> Outcome FileResponse :=
  redact_with process_document_classic.

(** The inner loop of [decrypt_endpoint]: the items of one page. *)
Fixpoint decrypt_items (key : bytes) (pii_items : list PiiItem)
  : result (list DecryptedPiiItem) :=
  match pii_items with
  | [] => Returned []
  | item :: more =>
      match decrypt_text key (encode_utf8 (encrypted_text item)) with
      | Raised e => Raised e
      | Returned decrypted_text =>
          match decrypt_items key more with
          | Raised e => Raised e
          | Returned rest =>
              Returned ({| text := decrypted_text; item_bbox := bbox item |} :: rest)
          end
      end
  end.

(** The outer loop: the pages in order, each page's list filled under
    its [page_num] in [decrypted_data["pages"]]. *)
Fixpoint decrypt_pages (key : bytes) (encrypted_pages : page_dict PiiItem)
         (decrypted_pages : page_dict DecryptedPiiItem)
  : result (page_dict DecryptedPiiItem) :=
  match encrypted_pages with
  | [] => Returned decrypted_pages
  | (page_num, pii_items) :: more =>
      match decrypt_items key pii_items with
      | Raised e => Raised e
      | Returned items =>
          decrypt_pages key more (dict_set page_num items decrypted_pages)
      end
  end.

Definition decrypt_endpoint (w : World) (request : DecryptionRequest)
  : Outcome DecryptionResponse :=
  let done (a : reply DecryptionResponse) :=
    {| world_after := w; background_tasks := []; answer := a |} in
  match ENCRYPTED_DATA_STORE w with
  | None =>
      done (Unhandled (Raise NameError "name 'ENCRYPTED_DATA_STORE' is not defined"))
  | Some store =>
      let encrypted_data := store !! document_id request in
      if negb (truthy encrypted_data)
      then done (HTTPException 404 "Document ID not found.")
      else
        match encrypted_data with
        | None => done (HTTPException 404 "Document ID not found.")
        | Some md =>
            match base64.urlsafe_b64decode (decryption_key request) with
            | Raised _ => done (HTTPException 400 "Invalid decryption key format.")
            | Returned key =>
                match decrypt_pages key (get_pages md) [] with
                | Returned ps =>
                    done (Respond {| resp_document_id := document_id request;
                                     resp_pages := ps |})
                | Raised e =>
                    if is_ValueError e
                    then done (HTTPException 403
                                 "Decryption failed. The provided key is incorrect.")
                    else done (Unhandled e)
                end
            end
        end
  end.

Definition unredact_endpoint (w : World) (rq : UnredactRequest)
  : Outcome FileResponse :=
  let early (a : reply FileResponse) :=
    {| world_after := w; background_tasks := []; answer := a |} in
  match redis_client.get (form_document_id rq) w with
  | Raised e => early (Unhandled e)
  | Returned None =>
      early (HTTPException 404 "Document ID not found or has expired.")
  | Returned (Some encrypted_metadata_json) =>
      let encrypted_metadata := json_loads encrypted_metadata_json in
      match base64.urlsafe_b64decode (form_decryption_key rq) with
      | Raised _ => early (HTTPException 400 "Invalid decryption key format.")
      | Returned key =>
          let file := redacted_file rq in
          let unique_filename := (drawn_upload_uuid rq ++ "_" ++ filename file)%string in
          let temp_redacted_path := path_join TEMP_UPLOADS_DIR unique_filename in
          match save_upload temp_redacted_path file w with
          | Raised e => early (Unhandled e)
          | Returned w1 =>
          match unredact_document (files w1) temp_redacted_path key encrypted_metadata with
          | (fs, Returned restored_file_path) =>
              {| world_after := with_files fs w1;
                 background_tasks := [[temp_redacted_path; restored_file_path]];
                 answer := Respond
                   {| path := restored_file_path;
                      media_type := content_type file;
                      download_name :=
                        ("restored_" ++ str_remove "redacted_" (filename file))%string;
                      headers := [] |} |}
          | (fs, Raised e) =>
              {| world_after := with_files fs w1;
                 background_tasks := [[temp_redacted_path]];
                 answer := HTTPException 500
                   ("An error occurred during un-redaction: " ++ exn_msg e) |}
          end
          end
      end
  end.

End Endpoints.

(** ** Histories: requests, the passing of time, cleanup *)

Inductive event :=
  | Elapse (dt : N)                          (* [dt] seconds pass *)
  | Link (up : bool)                         (* the Redis connection changes *)
  | RedactLlm (rq : RedactRequest)
  | RedactClassic (rq : RedactRequest)
  | Decrypt (rq : DecryptionRequest)
  | Unredact (rq : UnredactRequest)
  | Cleanup (paths : list str).              (* a scheduled [cleanup_files] runs *)

Definition step `{Core} (ev : event) (w : World) : World :=
  match ev with
  | Elapse dt => elapse dt w
  | Link up => set_redis_up up w
  | RedactLlm rq => world_after (redact_llm_endpoint w rq)
  | RedactClassic rq => world_after (redact_classic_endpoint w rq)
  | Decrypt rq => world_after (decrypt_endpoint w rq)
  | Unredact rq => world_after (unredact_endpoint w rq)
  | Cleanup paths => with_files (cleanup_files paths (files w)) w
  end.

Fixpoint run `{Core} (evs : list event) (w : World) : World :=
  match evs with
  | [] => w
  | ev :: more => run more (step ev w)
  end.

(** Does the event redact under the document identifier [d]? *)
Definition redacts_as (d : str) (ev : event) : bool :=
  match ev with
  | RedactLlm rq | RedactClassic rq => String.eqb (drawn_document_id rq) d
  | _ => false
  end.

(** ** A small instance of the collaborators

    Keys are 32 bytes.  A token is the key followed by the UTF-8 bytes of
    the text; it opens under the key it starts with.  The engines seal the
    whole content of a non-empty upload as one item on page 1 and write a
    blank artifact; for an upload without content the LLM engine returns
    [None] and the classic engine a dict with an empty [pages].
    Restoration opens every item and writes the last text back. *)
Module Demo.

Fixpoint bytes_prefix (p l : bytes) : bool :=
  match p, l with
  | [], _ => true
  | _ :: _, [] => false
  | a :: p', b :: l' => Byte.eqb a b && bytes_prefix p' l'
  end.

Definition demo_decrypt_text (key token : bytes) : result str :=
  if Nat.eqb (length key) 32 && bytes_prefix key token
  then decode_utf8 (drop 32 token)
  else Raised (Raise ValueError "invalid token").

(** The token of [content] under [key], as the [str] the store holds. *)
Definition seal (key content : bytes) : str :=
  string_of_list_byte (key ++ content).

Definition demo_process_document (when_empty : option Metadata)
           (fs : gmap string (list byte)) (input_path : str)
           (severity : Z) (key : bytes)
  : gmap string (list byte) * result (str * option Metadata) :=
  match fs !! input_path with
  | None => (fs, Raised (Raise OtherError "cannot open the document"))
  | Some content =>
      let out := path_join REDACTED_FILES_DIR ("redacted_" ++ basename input_path) in
      let fs' := <[out := []]> fs in
      match content with
      | [] => (fs', Returned (out, when_empty))
      | _ :: _ =>
          (fs', Returned (out,
             Some {| pages := Some [("1"%string,
                       [{| encrypted_text := seal key content;
                           bbox := [0%Q; 0%Q; 100%Q; 20%Q] |}])] |}))
      end
  end.

Fixpoint open_items (key : bytes) (pii_items : list PiiItem) (last : str) : result str :=
  match pii_items with
  | [] => Returned last
  | item :: more =>
      match demo_decrypt_text key (encode_utf8 (encrypted_text item)) with
      | Raised e => Raised e
      | Returned t => open_items key more t
      end
  end.

Fixpoint open_pages (key : bytes) (ps : page_dict PiiItem) (last : str) : result str :=
  match ps with
  | [] => Returned last
  | (_, pii_items) :: more =>
      match open_items key pii_items last with
      | Raised e => Raised e
      | Returned t => open_pages key more t
      end
  end.

Definition demo_unredact_document (fs : gmap string (list byte)) (p : str)
           (key : bytes) (md : Metadata)
  : gmap string (list byte) * result str :=
  match open_pages key (get_pages md) EmptyString with
  | Raised e => (fs, Raised e)
  | Returned t =>
      let out := path_join REDACTED_FILES_DIR ("restored_" ++ basename p) in
      (<[out := encode_utf8 t]> fs, Returned out)
  end.

#[export] Instance core : Core := {|
  process_document_llm := demo_process_document None;
  process_document_classic := demo_process_document (Some {| pages := Some [] |});
  unredact_document := demo_unredact_document;
  decrypt_text := demo_decrypt_text
|}.

Definition key1 : bytes := list_byte_of_string "0123456789abcdef0123456789abcdef".
Definition key2 : bytes := list_byte_of_string "fedcba9876543210fedcba9876543210".

Definition world0 : World :=
  {| clock := 1000; redis_up := true; redis_db := ∅;
     ENCRYPTED_DATA_STORE := None; files := ∅ |}.

Definition upload (name : str) (content : str) : UploadFile :=
  {| filename := name; content_type := "application/pdf";
     file_content := list_byte_of_string content |}.

(** A document with sensitive content, and an empty one. *)
Definition redact1 : RedactRequest :=
  {| file := upload "a.pdf" "Alice"; severity := 2;
     drawn_filename_uuid := "u1"; drawn_key := key1; drawn_document_id := "doc-1" |}.

Definition redact_empty : RedactRequest :=
  {| file := upload "e.pdf" ""; severity := 2;
     drawn_filename_uuid := "u2"; drawn_key := key1; drawn_document_id := "doc-2" |}.

Definition key1_b64 : str := "MDEyMzQ1Njc4OWFiY2RlZjAxMjM0NTY3ODlhYmNkZWY=".

(** The world after the first redaction. *)
Definition world1 : World := world_after (redact_llm_endpoint world0 redact1).

Definition key2_b64 : str := "ZmVkY2JhOTg3NjU0MzIxMGZlZGNiYTk4NzY1NDMyMTA=".

(** The session the first redaction stores. *)
Definition md1 : Metadata :=
  {| pages := Some [("1"%string,
       [{| encrypted_text := "0123456789abcdef0123456789abcdefAlice";
           bbox := [0%Q; 0%Q; 100%Q; 20%Q] |}])] |}.

(** A redaction whose upload has a slash in its name. *)
Definition redact_nested : RedactRequest :=
  {| file := upload "dir/a.pdf" "Alice"; severity := 2;
     drawn_filename_uuid := "u4"; drawn_key := key1; drawn_document_id := "doc-4" |}.

Definition restore (doc key_b64 : str) : UnredactRequest :=
  {| redacted_file := upload "redacted_u1_a.pdf" "";
     form_document_id := doc; form_decryption_key := key_b64;
     drawn_upload_uuid := "u3" |}.

Definition ask (doc key_b64 : str) : DecryptionRequest :=
  {| document_id := doc; decryption_key := key_b64 |}.

End Demo.

(** The class of the exception a call raised, if it raised. *)
Definition exn_cls_of {A : Type} (r : result A) : option exn_class :=
  match r with
  | Raised e => Some (exn_cls e)
  | Returned _ => None
  end.

(** The characters a URL carries unescaped: letters, digits, [-] and [_];
    [=] is the padding of the encoding. *)
Definition url_safe (c : ascii) : bool :=
  let n := ord c in
  ((65 <=? n) && (n <=? 90)) || ((97 <=? n) && (n <=? 122))
  || ((48 <=? n) && (n <=? 57)) || (n =? 45) || (n =? 95) || (n =? 61).

(** The two redaction endpoints, by engine variant. *)
Inductive engine_variant := LlmVision | Classic.

Definition process_document `{Core} (v : engine_variant) :=
  match v with
  | LlmVision => process_document_llm
  | Classic => process_document_classic
  end.

Definition redact_endpoint `{Core} (v : engine_variant)
  : World -> RedactRequest -> Outcome FileResponse :=
  match v with
  | LlmVision => redact_llm_endpoint
  | Classic => redact_classic_endpoint
  end.

(** The path a redaction request saves its upload under. *)
Definition input_path_of (rq : RedactRequest) : str :=
  path_join TEMP_UPLOADS_DIR (drawn_filename_uuid rq ++ "_" ++ filename (file rq)).

(** The path a restoration request saves its upload under. *)
Definition temp_redacted_path_of (rq : UnredactRequest) : str :=
  path_join TEMP_UPLOADS_DIR
    (drawn_upload_uuid rq ++ "_" ++ filename (redacted_file rq)).

(** What the engine does on the upload of a redaction request, once the
    upload is saved. *)
Definition engine_run `{Core} (v : engine_variant) (w : World) (rq : RedactRequest)
  : gmap string (list byte) * result (str * option Metadata) :=
  process_document v
    (files (saved (input_path_of rq) (file rq) w))
    (input_path_of rq) (severity rq) (drawn_key rq).

(** The headers of a reply; an [HTTPException] is raised without any. *)
Definition reply_headers (r : reply FileResponse) : list (str * str) :=
  match r with
  | Respond a => headers a
  | HTTPException _ _ | Unhandled _ => []
  end.

(** The paths some background task of the outcome will remove. *)
Definition scheduled {A : Type} (o : Outcome A) (p : str) : Prop :=
  exists task, In task (background_tasks o) /\ In p task.

(** A redaction request, its upload saved, fails at the engine (which
    also encrypts) or at the store write. *)
Definition fails_before_response `{Core} (v : engine_variant) (w : World)
           (rq : RedactRequest) : Prop :=
  open_wb_error (input_path_of rq) = None
  /\ ((exists fs e, engine_run v w rq = (fs, Raised e))
      \/ (exists fs p md, engine_run v w rq = (fs, Returned (p, md))
                          /\ truthy md = true /\ redis_up w = false)).

(** No event of the history redacts under the identifier [d]. *)
Definition never_redacts_as (d : str) (evs : list event) : bool :=
  forallb (fun ev => negb (redacts_as d ev)) evs.

(** A lookup that finds nothing, or an entry past its instant of expiry. *)
Definition absent_or_expired (d : str) (w : World) : Prop :=
  match redis_db w !! d with
  | None => True
  | Some (_, expires_at) => expires_at <= clock w
  end.

(** The ways a redaction request ends. *)
Inductive redact_end `{Core} (v : engine_variant) (w : World) (rq : RedactRequest)
  : Outcome FileResponse -> Prop :=
| upload_failed e :
    open_wb_error (input_path_of rq) = Some e ->
    redact_end v w rq
      {| world_after := w; background_tasks := []; answer := Unhandled e |}
| engine_failed fs e :
    open_wb_error (input_path_of rq) = None ->
    engine_run v w rq = (fs, Raised e) ->
    redact_end v w rq
      {| world_after := with_files fs (saved (input_path_of rq) (file rq) w);
         background_tasks := [[input_path_of rq]];
         answer := HTTPException 500 ("An error occurred: " ++ exn_msg e) |}
| store_failed fs p md :
    open_wb_error (input_path_of rq) = None ->
    engine_run v w rq = (fs, Returned (p, Some md)) ->
    truthy (Some md) = true -> redis_up w = false ->
    redact_end v w rq
      {| world_after := with_files fs (saved (input_path_of rq) (file rq) w);
         background_tasks := [[input_path_of rq]];
         answer := HTTPException 500
           ("An error occurred: " ++ exn_msg redis_client.connection_error) |}
| session_stored fs p md key_b64 :
    open_wb_error (input_path_of rq) = None ->
    engine_run v w rq = (fs, Returned (p, Some md)) ->
    truthy (Some md) = true -> redis_up w = true ->
    encode_key (drawn_key rq) = Returned key_b64 ->
    redact_end v w rq
      {| world_after :=
           with_db (<[drawn_document_id rq := (json_dumps md, clock w + 86400)]> (redis_db w))
             (with_files fs (saved (input_path_of rq) (file rq) w));
         background_tasks := [[input_path_of rq; p]];
         answer := Respond
           {| path := p; media_type := content_type (file rq);
              download_name := basename p;
              headers := [("X-Document-ID"%string, drawn_document_id rq);
                          ("X-Decryption-Key"%string, key_b64)] |} |}
| nothing_stored fs p md key_b64 :
    open_wb_error (input_path_of rq) = None ->
    engine_run v w rq = (fs, Returned (p, md)) ->
    truthy md = false ->
    encode_key (drawn_key rq) = Returned key_b64 ->
    redact_end v w rq
      {| world_after := with_files fs (saved (input_path_of rq) (file rq) w);
         background_tasks := [[input_path_of rq; p]];
         answer := Respond
           {| path := p; media_type := content_type (file rq);
              download_name := basename p;
              headers := [("X-Document-ID"%string, drawn_document_id rq);
                          ("X-Decryption-Key"%string, key_b64)] |} |}.

(** ** Checks used in the proofs about the transport encoding *)

Section Base64Checks.

Import binascii base64.

(** A character of the encoder's output, as the decoder sees it after
    both translations. *)
Definition seen (c : byte) : byte :=
  urlsafe_decode_translation (urlsafe_encode_translation c).

Definition sextet_check (v : N) : bool :=
  match table_a2b_base64 (seen (b2a v)) with
  | Some x => x =? v
  | None => false
  end
  && negb (Byte.eqb (seen (b2a v)) BASE64_PAD)
  && (Byte.to_N (urlsafe_encode_translation (b2a v)) <? 128)
  && url_safe (ascii_of_byte (urlsafe_encode_translation (b2a v))).

Definition first_byte_check (a h : N) : bool :=
  (N.lor (N.shiftl (N.land (N.shiftr a 2) 63) 2)
         (N.shiftr (N.land (N.lor (N.shiftl (N.land a 3) 4) h) 63) 4)) mod 256 =? a.

Definition second_byte_check (b e h : N) : bool :=
  (N.lor (N.shiftl (N.land (N.land (N.lor (N.shiftl e 4) (N.shiftr b 4)) 63) 15) 4)
         (N.shiftr (N.land (N.lor (N.shiftl (N.land b 15) 2) h) 63) 2)) mod 256 =? b.

Definition third_byte_check (c e : N) : bool :=
  (N.lor (N.shiftl (N.land (N.land (N.lor (N.shiftl e 2) (N.shiftr c 6)) 63) 3) 6)
         (N.land (N.land c 63) 63)) mod 256 =? c.

End Base64Checks.

(** ** Notions used to state what the endpoints do beyond the claims *)

(** The background tasks of a request run one after the other, in the
    order of the [add_task] calls, once the response has been sent. *)
Definition run_background_tasks (tasks : list (list str))
           (fs : gmap string (list byte)) : gmap string (list byte) :=
  fold_left (fun fs' task => cleanup_files task fs') tasks fs.


(** Does [old] occur in [s]? *)
Fixpoint contains (old s : str) : bool :=
  starts_with old s
  || match s with
     | EmptyString => false
     | String _ s' => contains old s'
     end.

(** A byte the decoding loop looks at: a character of the alphabet or the
    padding character. *)
Definition data_or_pad (c : byte) : bool :=
  Byte.eqb c binascii.BASE64_PAD
  || match binascii.table_a2b_base64 c with Some _ => true | None => false end.

(** What the decoder keeps of an ASCII key string: the translated
    characters that are of the alphabet or padding. *)
Definition significant (key_b64 : str) : result bytes :=
  match encode_ascii key_b64 with
  | Raised e => Raised e
  | Returned bs =>
      Returned (List.filter data_or_pad (map base64.urlsafe_decode_translation bs))
  end.

(** Every entry of the store expires at most 86400 seconds from now. *)
Definition all_due_within_a_day (w : World) : Prop :=
  forall d value expires_at,
    redis_db w !! d = Some (value, expires_at) -> expires_at <= clock w + 86400.

(** * Proofs *)

(** ** Bounded checks by evaluation *)

Lemma N_lt_forallb (P : N -> bool) (n : nat) :
  forallb P (map N.of_nat (seq 0 n)) = true ->
  forall x, x < N.of_nat n -> P x = true.
Proof.
  intros Hall x Hx.
  rewrite forallb_forall in Hall. apply Hall.
  apply in_map_iff. exists (N.to_nat x). split; [lia|].
  apply in_seq. lia.
Qed.

Lemma byte_of_to_N (b : byte) : byte_of_N (Byte.to_N b) = b.
Proof.
  unfold byte_of_N.
  rewrite N.mod_small by (pose proof (Byte.to_N_bounded b); lia).
  now rewrite Byte.of_to_N.
Qed.

Lemma to_N_lt_256 (b : byte) : Byte.to_N b < 256.
Proof. pose proof (Byte.to_N_bounded b). lia. Qed.

Lemma list_ind3 {A : Type} (P : list A -> Prop) :
  P [] -> (forall x, P [x]) -> (forall x y, P [x; y]) ->
  (forall x y z l, P l -> P (x :: y :: z :: l)) ->
  forall l, P l.
Proof.
  intros H0 H1 H2 H3 l.
  enough (P l /\ (forall x, P (x :: l)) /\ (forall x y, P (x :: y :: l))) by tauto.
  induction l as [|a l (IH0 & IH1 & IH2)]; [auto|].
  repeat split; auto.
Qed.

Lemma string_of_list_ascii_length (l : list ascii) :
  String.length (string_of_list_ascii l) = length l.
Proof. induction l as [|c l IH]; cbn; congruence. Qed.

(** ** The transport encoding of keys *)

Section Base64Facts.

Import binascii base64.



Lemma sextet_check_all (v : N) : v < 64 -> sextet_check v = true.
Proof. apply (N_lt_forallb sextet_check 64). vm_compute. reflexivity. Qed.

Lemma land_63_lt (v : N) : N.land v 63 < 64.
Proof.
  change 63 with (N.ones 6). rewrite N.land_ones.
  apply N.mod_lt. discriminate.
Qed.

Lemma b2a_land (v : N) : b2a v = b2a (N.land v 63).
Proof.
  unfold b2a. now rewrite <- N.land_assoc, N.land_diag.
Qed.

Lemma sextet_facts (v : N) :
  table_a2b_base64 (seen (b2a v)) = Some (N.land v 63)
  /\ Byte.eqb (seen (b2a v)) BASE64_PAD = false
  /\ Byte.to_N (urlsafe_encode_translation (b2a v)) < 128
  /\ url_safe (ascii_of_byte (urlsafe_encode_translation (b2a v))) = true.
Proof.
  rewrite (b2a_land v).
  pose proof (sextet_check_all _ (land_63_lt v)) as Hc.
  unfold sextet_check in Hc.
  repeat (apply andb_prop in Hc; destruct Hc as [Hc ?]).
  destruct (table_a2b_base64 _) as [x|]; [|discriminate].
  apply N.eqb_eq in Hc. subst x.
  repeat split; auto.
  - now apply negb_true_iff.
  - now apply N.ltb_lt.
Qed.

(** *** One step of the decoding loop on a character of the alphabet *)

Lemma a2b_step0 v more lc pads out :
  a2b_loop (seen (b2a v) :: more) 0 lc pads out
  = a2b_loop more 1 (N.land v 63) 0 out.
Proof.
  destruct (sextet_facts v) as (Ht & Hp & _).
  cbn [a2b_loop]. now rewrite Hp, Ht.
Qed.

Lemma a2b_step1 v more lc pads out :
  a2b_loop (seen (b2a v) :: more) 1 lc pads out
  = a2b_loop more 2 (N.land (N.land v 63) 15) 0
      (out ++ [byte_of_N (N.lor (N.shiftl lc 2) (N.shiftr (N.land v 63) 4))]).
Proof.
  destruct (sextet_facts v) as (Ht & Hp & _).
  cbn [a2b_loop]. now rewrite Hp, Ht.
Qed.

Lemma a2b_step2 v more lc pads out :
  a2b_loop (seen (b2a v) :: more) 2 lc pads out
  = a2b_loop more 3 (N.land (N.land v 63) 3) 0
      (out ++ [byte_of_N (N.lor (N.shiftl lc 4) (N.shiftr (N.land v 63) 2))]).
Proof.
  destruct (sextet_facts v) as (Ht & Hp & _).
  cbn [a2b_loop]. now rewrite Hp, Ht.
Qed.

Lemma a2b_step3 v more lc pads out :
  a2b_loop (seen (b2a v) :: more) 3 lc pads out
  = a2b_loop more 0 0 0
      (out ++ [byte_of_N (N.lor (N.shiftl lc 6) (N.land v 63))]).
Proof.
  destruct (sextet_facts v) as (Ht & Hp & _).
  cbn [a2b_loop]. now rewrite Hp, Ht.
Qed.

(** *** The three bytes of a group come back from its four sextets *)


Lemma first_byte (a h : N) :
  a < 256 -> h < 16 -> first_byte_check a h = true.
Proof.
  intros Ha Hh.
  apply (N_lt_forallb (first_byte_check a) 16); [|exact Hh].
  revert a Ha.
  apply (N_lt_forallb
           (fun a => forallb (first_byte_check a) (map N.of_nat (seq 0 16))) 256).
  vm_compute. reflexivity.
Qed.

Lemma second_byte (b e h : N) :
  b < 256 -> e < 4 -> h < 4 -> second_byte_check b e h = true.
Proof.
  intros Hb He Hh.
  apply (N_lt_forallb (second_byte_check b e) 4); [|exact Hh].
  revert e He.
  apply (N_lt_forallb
           (fun e => forallb (second_byte_check b e) (map N.of_nat (seq 0 4))) 4).
  revert b Hb.
  apply (N_lt_forallb
           (fun b => forallb
              (fun e => forallb (second_byte_check b e) (map N.of_nat (seq 0 4)))
              (map N.of_nat (seq 0 4))) 256).
  vm_compute. reflexivity.
Qed.

Lemma third_byte (c e : N) :
  c < 256 -> e < 16 -> third_byte_check c e = true.
Proof.
  intros Hc He.
  apply (N_lt_forallb (third_byte_check c) 16); [|exact He].
  revert c Hc.
  apply (N_lt_forallb
           (fun c => forallb (third_byte_check c) (map N.of_nat (seq 0 16))) 256).
  vm_compute. reflexivity.
Qed.

Lemma byte_ranges (b : N) :
  b < 256 ->
  N.shiftr b 4 < 16 /\ N.land b 3 < 4 /\ N.land b 15 < 16 /\ N.shiftr b 6 < 4.
Proof.
  intros Hb.
  assert (H : (N.shiftr b 4 <? 16) && (N.land b 3 <? 4)
              && (N.land b 15 <? 16) && (N.shiftr b 6 <? 4) = true).
  { revert b Hb.
    apply (N_lt_forallb
             (fun b => (N.shiftr b 4 <? 16) && (N.land b 3 <? 4)
                       && (N.land b 15 <? 16) && (N.shiftr b 6 <? 4)) 256).
    vm_compute. reflexivity. }
  repeat (apply andb_prop in H; destruct H as [H ?]).
  repeat split; now apply N.ltb_lt.
Qed.

Lemma byte_of_N_mod (n : N) (x : byte) :
  n mod 256 = Byte.to_N x -> byte_of_N n = x.
Proof.
  intros Hn. rewrite <- (byte_of_to_N x), <- Hn.
  unfold byte_of_N. now rewrite N.Div0.mod_mod.
Qed.

(** *** Decoding what the encoder wrote *)

Lemma a2b_loop_after_b2a (data : bytes) :
  forall lc pads out,
    a2b_loop (map seen (b2a_base64 data)) 0 lc pads out = Returned (out ++ data).
Proof.
  induction data as [|x|x y|x y z rest IH] using list_ind3; intros lc pads out.
  - cbn. now rewrite app_nil_r.
  - pose proof (to_N_lt_256 x) as Hx.
    cbn [b2a_base64 map].
    rewrite a2b_step0, a2b_step1.
    cbn [a2b_loop]. cbn.
    f_equal. f_equal. f_equal.
    apply byte_of_N_mod.
    pose proof (first_byte (Byte.to_N x) 0 Hx eq_refl) as Hf.
    unfold first_byte_check in Hf. rewrite N.lor_0_r in Hf.
    now apply N.eqb_eq.
  - pose proof (to_N_lt_256 x) as Hx. pose proof (to_N_lt_256 y) as Hy.
    destruct (byte_ranges _ Hx) as (_ & Hx3 & _ & _).
    destruct (byte_ranges _ Hy) as (Hy4 & _ & _ & _).
    cbn [b2a_base64 map].
    rewrite a2b_step0, a2b_step1, a2b_step2.
    cbn [a2b_loop]. cbn.
    rewrite <- app_assoc. cbn [app].
    f_equal. f_equal. f_equal; [|f_equal].
    + apply byte_of_N_mod.
      apply N.eqb_eq. exact (first_byte _ _ Hx Hy4).
    + apply byte_of_N_mod.
      pose proof (second_byte (Byte.to_N y) _ 0 Hy Hx3 eq_refl) as Hs.
      unfold second_byte_check in Hs. rewrite N.lor_0_r in Hs.
      now apply N.eqb_eq.
  - pose proof (to_N_lt_256 x) as Hx. pose proof (to_N_lt_256 y) as Hy.
    pose proof (to_N_lt_256 z) as Hz.
    destruct (byte_ranges _ Hx) as (_ & Hx3 & _ & _).
    destruct (byte_ranges _ Hy) as (Hy4 & _ & Hy15 & _).
    destruct (byte_ranges _ Hz) as (_ & _ & _ & Hz6).
    cbn [b2a_base64 map].
    rewrite a2b_step0, a2b_step1, a2b_step2, a2b_step3.
    rewrite IH. rewrite <- !app_assoc. cbn [app].
    f_equal. f_equal. f_equal; [|f_equal; [|f_equal]].
    + apply byte_of_N_mod.
      apply N.eqb_eq. exact (first_byte _ _ Hx Hy4).
    + apply byte_of_N_mod.
      apply N.eqb_eq. exact (second_byte _ _ _ Hy Hx3 Hz6).
    + apply byte_of_N_mod.
      apply N.eqb_eq. exact (third_byte _ _ Hz Hy15).
Qed.

Lemma urlsafe_b64encode_chars (data : bytes) :
  Forall (fun c => Byte.to_N c < 128 /\ url_safe (ascii_of_byte c) = true)
         (urlsafe_b64encode data).
Proof.
  unfold urlsafe_b64encode, b64encode.
  assert (Hpad : Byte.to_N (urlsafe_encode_translation BASE64_PAD) < 128
                 /\ url_safe (ascii_of_byte (urlsafe_encode_translation BASE64_PAD)) = true)
    by (split; reflexivity).
  assert (Hsx : forall v,
             Byte.to_N (urlsafe_encode_translation (b2a v)) < 128
             /\ url_safe (ascii_of_byte (urlsafe_encode_translation (b2a v))) = true)
    by (intros v; destruct (sextet_facts v) as (_ & _ & ? & ?); auto).
  induction data as [|x|x y|x y z rest IH] using list_ind3;
    cbn [b2a_base64 map]; repeat constructor;
    try apply Hsx; try apply Hpad; try apply IH.
Qed.

Lemma b2a_base64_length (data : bytes) :
  length (b2a_base64 data) = (4 * ((length data + 2) / 3))%nat.
Proof.
  induction data as [|x|x y|x y z rest IH] using list_ind3;
    try reflexivity.
  cbn [b2a_base64 length]. rewrite IH.
  replace (S (S (S (length rest))) + 2)%nat with (1 * 3 + (length rest + 2))%nat by lia.
  rewrite Nat.div_add_l by discriminate. lia.
Qed.

(** [decode('utf-8')] and [encode('ascii')] on bytes below 128. *)
Lemma decode_utf8_ascii (l : bytes) :
  Forall (fun c => Byte.to_N c < 128) l ->
  decode_utf8 l = Returned (string_of_list_byte l).
Proof.
  induction 1 as [|c l Hc _ IH]; [reflexivity|].
  cbn [decode_utf8]. rewrite IH.
  apply N.ltb_lt in Hc. rewrite Hc. cbn.
  unfold chr. rewrite N.mod_small by apply to_N_lt_256.
  now rewrite ascii_of_byte_via_N.
Qed.

Lemma encode_ascii_ascii (l : bytes) :
  Forall (fun c => Byte.to_N c < 128) l ->
  encode_ascii (string_of_list_byte l) = Returned l.
Proof.
  induction 1 as [|c l Hc _ IH]; [reflexivity|].
  cbn [string_of_list_byte map string_of_list_ascii encode_ascii].
  fold (string_of_list_byte l). rewrite IH.
  unfold ord. rewrite ascii_of_byte_via_N.
  rewrite N_ascii_embedding by apply to_N_lt_256.
  replace (128 <=? Byte.to_N c) with false
    by (symmetry; apply N.leb_gt; exact Hc).
  now rewrite byte_of_to_N.
Qed.

Lemma encode_key_returns (key : bytes) :
  encode_key key = Returned (string_of_list_byte (urlsafe_b64encode key)).
Proof.
  unfold encode_key. apply decode_utf8_ascii.
  eapply Forall_impl; [apply urlsafe_b64encode_chars|].
  cbn. tauto.
Qed.

Lemma urlsafe_b64decode_encode (key : bytes) :
  urlsafe_b64decode (string_of_list_byte (urlsafe_b64encode key)) = Returned key.
Proof.
  unfold urlsafe_b64decode.
  rewrite encode_ascii_ascii.
  - unfold urlsafe_b64encode, b64encode, b64decode, a2b_base64.
    rewrite map_map. fold seen.
    apply (a2b_loop_after_b2a key 0 0 []).
  - eapply Forall_impl; [apply urlsafe_b64encode_chars|].
    cbn. tauto.
Qed.

End Base64Facts.

(** The decoder on sample strings, as the Python library answers them. *)
Example encode_hello :
  encode_key (list_byte_of_string "hello") = Returned "aGVsbG8="%string.
Proof. reflexivity. Qed.

Example encode_uses_url_alphabet :
  encode_key [xfb; xff; xfe] = Returned "-__-"%string.
Proof. reflexivity. Qed.

Example encode_every_remainder :
  encode_key [] = Returned ""%string
  /\ encode_key [xff] = Returned "_w=="%string
  /\ encode_key [xff; xfe] = Returned "__4="%string
  /\ encode_key [x00; x10; x83; x10; x51; x87] = Returned "ABCDEFGH"%string
  /\ encode_key [xfb; xef; xbe; x3e] = Returned "----Pg=="%string
  /\ encode_key [xfa; xfb; xfc; xfd; xfe; xff; x00] = Returned "-vv8_f7_AA=="%string.
Proof. repeat split; reflexivity. Qed.

Example decode_skips_foreign_characters :
  base64.urlsafe_b64decode "a!GV sbG8=junk" = Returned (list_byte_of_string "hello").
Proof. reflexivity. Qed.

Example decode_accepts_both_alphabets :
  base64.urlsafe_b64decode "+//+" = Returned [xfb; xff; xfe]
  /\ base64.urlsafe_b64decode "-__-" = Returned [xfb; xff; xfe].
Proof. split; reflexivity. Qed.

Example decode_padding_cases :
  base64.urlsafe_b64decode "ab==" = Returned [x69]
  /\ base64.urlsafe_b64decode "ab==cd" = Returned [x69]
  /\ base64.urlsafe_b64decode "abc=d" = Returned [x69; xb7]
  /\ base64.urlsafe_b64decode "ab=c=" = Returned [x69; xb7]
  /\ base64.urlsafe_b64decode "ab=cd" = Returned [x69; xb7; x1d]
  /\ base64.urlsafe_b64decode "" = Returned [].
Proof. repeat split; reflexivity. Qed.

Example decode_raises :
  exn_cls_of (base64.urlsafe_b64decode "aGVsbG8") = Some BinasciiError
  /\ exn_cls_of (base64.urlsafe_b64decode "a") = Some BinasciiError
  /\ exn_cls_of (base64.urlsafe_b64decode "a===") = Some BinasciiError
  /\ exn_cls_of (base64.urlsafe_b64decode "ab=") = Some BinasciiError
  /\ exn_cls_of (base64.urlsafe_b64decode "a=b=") = Some BinasciiError
  /\ exn_cls_of (base64.urlsafe_b64decode "ab=c") = Some BinasciiError
  /\ exn_cls_of (base64.urlsafe_b64decode "ab=cde") = Some BinasciiError
  /\ exn_cls_of (base64.urlsafe_b64decode (String (chr 233) "")) = Some ValueError.
Proof. repeat split; reflexivity. Qed.

(** C8.  The transport encoding of a key: the header value exists for every
    key, [urlsafe_b64decode] gives the key back, every character of the
    value is a letter, a digit, [-], [_] or the padding [=], and its length
    is four characters for every three bytes begun, so keys of one length
    have header values of one length. *)
Theorem key_transport_roundtrip (key : bytes) :
  exists key_b64 : str,
    encode_key key = Returned key_b64
    /\ base64.urlsafe_b64decode key_b64 = Returned key
    /\ (forall c, In c (list_ascii_of_string key_b64) -> url_safe c = true)
    /\ String.length key_b64 = (4 * ((length key + 2) / 3))%nat
    /\ (forall key' : bytes, length key' = length key ->
        exists key_b64', encode_key key' = Returned key_b64'
                         /\ String.length key_b64' = String.length key_b64).
Proof.
  assert (Hlen : forall k : bytes,
             String.length (string_of_list_byte (base64.urlsafe_b64encode k))
             = (4 * ((length k + 2) / 3))%nat).
  { intros k. unfold string_of_list_byte.
    rewrite string_of_list_ascii_length.
    unfold base64.urlsafe_b64encode, base64.b64encode.
    rewrite !length_map. apply b2a_base64_length. }
  exists (string_of_list_byte (base64.urlsafe_b64encode key)).
  split; [apply encode_key_returns|].
  split; [apply urlsafe_b64decode_encode|].
  split; [|split].
  - intros c Hc. unfold string_of_list_byte in Hc.
    rewrite list_ascii_of_string_of_list_ascii in Hc.
    apply in_map_iff in Hc as (b & <- & Hb).
    pose proof (urlsafe_b64encode_chars key) as Hall.
    rewrite Forall_forall in Hall. apply Hall.
    now apply list_elem_of_In.
  - apply Hlen.
  - intros key' Hk'.
    exists (string_of_list_byte (base64.urlsafe_b64encode key')).
    split; [apply encode_key_returns|].
    now rewrite !Hlen, Hk'.
Qed.

(** ** The endpoints *)

Section ServiceFacts.

Context `{Core}.

Lemma redact_endpoint_unfold (v : engine_variant) (w : World) (rq : RedactRequest) :
  redact_endpoint v w rq = redact_with (process_document v) w rq.
Proof. destruct v; reflexivity. Qed.


Lemma redact_endpoint_end (v : engine_variant) (w : World) (rq : RedactRequest) :
  redact_end v w rq (redact_endpoint v w rq).
Proof.
  rewrite redact_endpoint_unfold. unfold redact_with, save_upload.
  fold (input_path_of rq).
  pose proof (encode_key_returns (drawn_key rq)) as Hk.
  destruct (open_wb_error (input_path_of rq)) as [e|] eqn:Hopen;
    [now apply upload_failed|].
  destruct (process_document v
              (files (saved (input_path_of rq) (file rq) w))
              (input_path_of rq) (severity rq) (drawn_key rq))
    as [fs [e|[p md]]] eqn:Hrun.
  - now apply engine_failed.
  - rewrite Hk.
    destruct md as [md|].
    + destruct (truthy (Some md)) eqn:Ht.
      * unfold redis_client.set.
        change (redis_up (with_files fs (saved (input_path_of rq) (file rq) w)))
          with (redis_up w).
        destruct (redis_up w) eqn:Hup.
        -- exact (session_stored v w rq fs p md _ Hopen Hrun Ht Hup Hk).
        -- exact (store_failed v w rq fs p md Hopen Hrun Ht Hup).
      * eapply nothing_stored; eauto.
    + eapply nothing_stored; eauto.
Qed.

(** What a redaction leaves in the store: nothing new, or one entry
    under its document identifier, due 86400 seconds later. *)
Lemma redact_endpoint_db (v : engine_variant) (w : World) (rq : RedactRequest) :
  let w' := world_after (redact_endpoint v w rq) in
  (redis_db w' = redis_db w
   \/ exists md, redis_db w' =
                 <[drawn_document_id rq := (json_dumps md, clock w + 86400)]> (redis_db w))
  /\ ENCRYPTED_DATA_STORE w' = ENCRYPTED_DATA_STORE w
  /\ clock w' = clock w /\ redis_up w' = redis_up w.
Proof.
  destruct (redact_endpoint_end v w rq); cbn; repeat split; eauto.
Qed.

Lemma decrypt_endpoint_pure (w : World) (rq : DecryptionRequest) :
  world_after (decrypt_endpoint w rq) = w
  /\ background_tasks (decrypt_endpoint w rq) = [].
Proof.
  unfold decrypt_endpoint. repeat case_match; auto.
Qed.

Lemma unredact_endpoint_stores (w : World) (rq : UnredactRequest) :
  let w' := world_after (unredact_endpoint w rq) in
  redis_db w' = redis_db w /\ ENCRYPTED_DATA_STORE w' = ENCRYPTED_DATA_STORE w
  /\ clock w' = clock w /\ redis_up w' = redis_up w.
Proof.
  unfold unredact_endpoint, save_upload.
  destruct (redis_client.get (form_document_id rq) w) as [e|[j|]]; cbn; auto.
  destruct (base64.urlsafe_b64decode (form_decryption_key rq)) as [e|key]; cbn; auto.
  destruct (open_wb_error _) as [e|]; cbn; auto.
  destruct (unredact_document _ _ _ _) as [fs [e|restored]]; cbn; auto.
Qed.

Lemma step_data_store (ev : event) (w : World) :
  ENCRYPTED_DATA_STORE (step ev w) = ENCRYPTED_DATA_STORE w.
Proof.
  destruct ev as [dt|up|rq|rq|rq|rq|paths]; cbn [step]; try reflexivity.
  - apply (redact_endpoint_db LlmVision w rq).
  - apply (redact_endpoint_db Classic w rq).
  - now rewrite (proj1 (decrypt_endpoint_pure w rq)).
  - apply (unredact_endpoint_stores w rq).
Qed.

Lemma step_lookup (d : str) (ev : event) (w : World) :
  redacts_as d ev = false ->
  redis_db (step ev w) !! d = redis_db w !! d.
Proof.
  intros Hd.
  destruct ev as [dt|up|rq|rq|rq|rq|paths]; cbn [step redacts_as] in *;
    try reflexivity.
  - apply String.eqb_neq in Hd.
    change (redact_llm_endpoint w rq) with (redact_endpoint LlmVision w rq).
    destruct (redact_endpoint_db LlmVision w rq) as ([-> | [md ->]] & _); [done|].
    now rewrite lookup_insert_ne.
  - apply String.eqb_neq in Hd.
    change (redact_classic_endpoint w rq) with (redact_endpoint Classic w rq).
    destruct (redact_endpoint_db Classic w rq) as ([-> | [md ->]] & _); [done|].
    now rewrite lookup_insert_ne.
  - now rewrite (proj1 (decrypt_endpoint_pure w rq)).
  - now rewrite (proj1 (unredact_endpoint_stores w rq)).
Qed.

Lemma run_data_store (evs : list event) (w : World) :
  ENCRYPTED_DATA_STORE (run evs w) = ENCRYPTED_DATA_STORE w.
Proof.
  revert w. induction evs as [|ev evs IH]; intros w; [reflexivity|].
  cbn [run]. now rewrite IH, step_data_store.
Qed.

Lemma run_lookup (d : str) (evs : list event) (w : World) :
  never_redacts_as d evs = true ->
  redis_db (run evs w) !! d = redis_db w !! d.
Proof.
  unfold never_redacts_as.
  revert w. induction evs as [|ev evs IH]; intros w Hall; [reflexivity|].
  cbn [forallb] in Hall. apply andb_prop in Hall as [Hev Hall].
  apply negb_true_iff in Hev.
  cbn [run]. now rewrite IH, step_lookup.
Qed.


Lemma unredact_not_found (w : World) (rq : UnredactRequest) :
  redis_up w = true ->
  absent_or_expired (form_document_id rq) w ->
  unredact_endpoint w rq =
  {| world_after := w; background_tasks := [];
     answer := HTTPException 404 "Document ID not found or has expired." |}.
Proof.
  intros Hup Habs. unfold unredact_endpoint, redis_client.get.
  rewrite Hup. unfold absent_or_expired in Habs.
  destruct (redis_db w !! form_document_id rq) as [[value t]|]; [|reflexivity].
  replace (clock w <? t) with false by (symmetry; apply N.ltb_ge; exact Habs).
  reflexivity.
Qed.

(** The reply to a restoration request for an absent or expired entry
    is the reply the request gets when the entry never existed. *)
Lemma unredact_as_never_existed (w : World) (rq : UnredactRequest) :
  absent_or_expired (form_document_id rq) w ->
  answer (unredact_endpoint w rq) =
  answer (unredact_endpoint
            (with_db (delete (form_document_id rq) (redis_db w)) w) rq).
Proof.
  intros Habs. unfold unredact_endpoint, redis_client.get.
  cbn [redis_up with_db redis_db clock].
  destruct (redis_up w); [|reflexivity].
  rewrite lookup_delete_eq. unfold absent_or_expired in Habs.
  destruct (redis_db w !! form_document_id rq) as [[value t]|]; [|reflexivity].
  replace (clock w <? t) with false by (symmetry; apply N.ltb_ge; exact Habs).
  reflexivity.
Qed.

(** With the global name unbound, as in [main.py], every call of Decrypt
    dies on line 122 with a [NameError] that nothing catches. *)
Lemma decrypt_raises_name_error (w : World) (rq : DecryptionRequest) :
  ENCRYPTED_DATA_STORE w = None ->
  decrypt_endpoint w rq =
  {| world_after := w; background_tasks := [];
     answer := Unhandled (Raise NameError "name 'ENCRYPTED_DATA_STORE' is not defined") |}.
Proof.
  intros Hunbound. unfold decrypt_endpoint. now rewrite Hunbound.
Qed.

End ServiceFacts.

(** Case analysis on the end of a redaction: the upload could not be
    saved, the engine failed, the store write failed, the session was
    stored, or nothing was to store. *)
Ltac redact_ends v w rq :=
  destruct (redact_endpoint_end v w rq)
    as [e' Hopen' | fs' e' Hopen' Hrun' | fs' p' md' Hopen' Hrun' Ht' Hup'
       | fs' p' md' k' Hopen' Hrun' Ht' Hup' Hk' | fs' p' md' k' Hopen' Hrun' Ht' Hk'].

(** ** The claims about redaction *)

Section RedactionClaims.

Context `{Core}.


(** A redaction that ends in an [HTTPException] failed at the engine or at
    the store write. *)
Lemma redaction_failure_kinds (v : engine_variant) (w : World) (rq : RedactRequest)
      status detail :
  answer (redact_endpoint v w rq) = HTTPException status detail ->
  fails_before_response v w rq.
Proof.
  intros Hno.
  redact_ends v w rq; cbn [answer] in Hno; try discriminate.
  - split; [exact Hopen'|]. left. eauto.
  - split; [exact Hopen'|]. right. eauto 7.
Qed.


(** C6.  A redaction writes to the store, if at all, one entry under its
    document identifier that expires 86400 seconds after the write.  Once
    that time has passed, and whatever else happened meanwhile short of a
    redaction under the same identifier, Restore answers 404, which is
    its reply when the entry never existed.  Decrypt, the global name it
    reads being unbound, answers neither 404 nor anything else: it dies
    with a [NameError], before and after the expiry alike. *)
Theorem session_expires_after_a_day
    (v : engine_variant) (w : World) (rq : RedactRequest) (evs : list event) :
  let o := redact_endpoint v w rq in
  let d := drawn_document_id rq in
  let later := run evs (world_after o) in
  (redis_db (world_after o) = redis_db w
   \/ exists md, redis_db (world_after o)
                 = <[d := (json_dumps md, clock w + 86400)]> (redis_db w))
  /\ (redis_db w !! d = None ->
      never_redacts_as d evs = true ->
      clock w + 86400 <= clock later ->
      forall urq, form_document_id urq = d ->
         answer (unredact_endpoint later urq)
         = answer (unredact_endpoint
                     (with_db (delete d (redis_db later)) later) urq)
         /\ (redis_up later = true ->
             answer (unredact_endpoint later urq)
             = HTTPException 404 "Document ID not found or has expired."))
  /\ (ENCRYPTED_DATA_STORE w = None ->
      forall drq,
        answer (decrypt_endpoint later drq)
        = Unhandled (Raise NameError "name 'ENCRYPTED_DATA_STORE' is not defined")).
Proof.
  intros o d later. subst o d later.
  destruct (redact_endpoint_db v w rq) as (Hdb & Hdata & _).
  split; [exact Hdb|]. split.
  - intros Hfresh Hevs Hlate.
    set (later := run evs (world_after (redact_endpoint v w rq))) in *.
    assert (Habs : absent_or_expired (drawn_document_id rq) later).
    { unfold absent_or_expired. subst later.
      rewrite run_lookup by exact Hevs.
      destruct Hdb as [->|[md ->]].
      - now rewrite Hfresh.
      - rewrite lookup_insert_eq. exact Hlate. }
    intros urq Hd. rewrite <- Hd in Habs. split.
    + rewrite <- Hd. now apply unredact_as_never_existed.
    + intros Hup. now rewrite unredact_not_found.
  - intros Hunbound drq. rewrite decrypt_raises_name_error; [reflexivity|].
    now rewrite run_data_store, Hdata.
Qed.


End RedactionClaims.

(** ** The claims about decryption and restoration *)

(** Case analysis on the end of a restoration: the store did not answer,
    the key did not decode, the upload could not be saved, the engine
    raised, the engine returned, or no entry was found. *)
Ltac unredact_ends w rq :=
  unfold unredact_endpoint, save_upload in *;
  destruct (redis_client.get (form_document_id rq) w) as [e'|[j'|]] eqn:Hget';
    [ | destruct (base64.urlsafe_b64decode (form_decryption_key rq))
          as [e'|key'] eqn:Hdec';
        [ | destruct (open_wb_error _) as [e'|] eqn:Hopen';
            [ | destruct (unredact_document _ _ _ _)
                  as [fs' [e'|restored']] eqn:Hun' ] ]
      | ];
  cbn [answer world_after background_tasks] in *.

Section RecoveryClaims.

Context `{Core}.

(** C10.  A restoration request answered 404 or 400 has written no file,
    changed nothing else and scheduled no task; and whenever the request
    did change the file system, the store lookup had returned the entry
    and the key had decoded. *)
Theorem restore_rejects_before_writing (w : World) (rq : UnredactRequest) :
  let o := unredact_endpoint w rq in
  ((exists detail, answer o = HTTPException 404 detail
                   \/ answer o = HTTPException 400 detail) ->
   files (world_after o) = files w /\ world_after o = w
   /\ background_tasks o = [])
  /\ (files (world_after o) <> files w ->
      exists j key,
        redis_client.get (form_document_id rq) w = Returned (Some j)
        /\ base64.urlsafe_b64decode (form_decryption_key rq) = Returned key).
Proof.
  intros o. subst o. unredact_ends w rq.
  - split; [auto|]. intros Hne. now destruct Hne.
  - split; [auto|]. intros Hne. now destruct Hne.
  - split; [auto|]. intros Hne. now destruct Hne.
  - split; [|eauto]. intros (detail & [Hd|Hd]); discriminate.
  - split; [|eauto]. intros (detail & [Hd|Hd]); discriminate.
  - split; [auto|]. intros Hne. now destruct Hne.
Qed.

(** Status 400 comes from the decoder alone: Restore answers it exactly
    when the entry was found and [urlsafe_b64decode] raised. *)
Lemma invalid_key_format_only_from_decoder (w : World) (rq : UnredactRequest) detail :
  answer (unredact_endpoint w rq) = HTTPException 400 detail ->
  exists j e,
    redis_client.get (form_document_id rq) w = Returned (Some j)
    /\ base64.urlsafe_b64decode (form_decryption_key rq) = Raised e.
Proof.
  intros Ha. unredact_ends w rq; try discriminate. eauto.
Qed.

(** A key string that the decoder accepts is never reported as malformed,
    whatever it decodes to and whatever the engine does with it. *)
Lemma decodable_key_is_never_reported (w : World) (rq : UnredactRequest) (key : bytes) :
  base64.urlsafe_b64decode (form_decryption_key rq) = Returned key ->
  forall detail, answer (unredact_endpoint w rq) <> HTTPException 400 detail.
Proof.
  intros Hdec detail Ha.
  destruct (invalid_key_format_only_from_decoder w rq detail Ha) as (j & e & _ & He).
  congruence.
Qed.

(** Restore hands a file back only when [unredact_document], called on the
    saved upload with the decoded key and the stored metadata, returned
    its path: what a key other than the issued one recovers is for that
    function to decide. *)
Lemma restore_returns_what_the_engine_returns
      (w : World) (rq : UnredactRequest) (a : FileResponse) :
  answer (unredact_endpoint w rq) = Respond a ->
  exists j key fs,
    redis_client.get (form_document_id rq) w = Returned (Some j)
    /\ base64.urlsafe_b64decode (form_decryption_key rq) = Returned key
    /\ unredact_document
         (files (saved (temp_redacted_path_of rq) (redacted_file rq) w))
         (temp_redacted_path_of rq) key (json_loads j)
       = (fs, Returned (path a)).
Proof.
  unfold temp_redacted_path_of.
  unredact_ends w rq; try discriminate.
  intros [= <-]. exists j', key', fs'. repeat split; try reflexivity. exact Hun'.
Qed.

(** Restore has no reply of its own for a wrong key: it never answers 403. *)
Lemma restore_never_answers_403 (w : World) (rq : UnredactRequest) (detail : str) :
  answer (unredact_endpoint w rq) <> HTTPException 403 detail.
Proof.
  unredact_ends w rq; discriminate.
Qed.

(** A key string with a character outside ASCII is refused by the decoder. *)
Lemma non_ascii_key_raises (s1 s2 : str) (c : ascii) :
  128 <= ord c ->
  (forall c', In c' (list_ascii_of_string s1) -> ord c' < 128) ->
  base64.urlsafe_b64decode (s1 ++ String c s2)
  = Raised (Raise ValueError "string argument should contain only ASCII characters").
Proof.
  intros Hc Hs1. unfold base64.urlsafe_b64decode.
  assert (Henc : exists e, encode_ascii (s1 ++ String c s2) = Raised e).
  { induction s1 as [|a s1 IH].
    - change (String.append "" (String c s2)) with (String c s2).
      cbn [encode_ascii]. apply N.leb_le in Hc. rewrite Hc. eauto.
    - change (String.append (String a s1) (String c s2))
        with (String a (String.append s1 (String c s2))).
      cbn [encode_ascii].
      replace (128 <=? ord a) with false.
      + destruct IH as [e ->]; [|eauto].
        intros c' Hc'. apply Hs1. now right.
      + symmetry. apply N.leb_gt. apply Hs1. now left. }
  destruct Henc as [e ->]. reflexivity.
Qed.

End RecoveryClaims.

(** ** Where the code departs from the claims *)

Section Departures.

Context `{Core}.

(** The reply of Decrypt is a function of what the global name is bound to. *)
Lemma decrypt_answer_reads_dict (w w' : World) (drq : DecryptionRequest) :
  ENCRYPTED_DATA_STORE w = ENCRYPTED_DATA_STORE w' ->
  answer (decrypt_endpoint w drq) = answer (decrypt_endpoint w' drq).
Proof.
  intros Heq. unfold decrypt_endpoint. rewrite Heq.
  repeat case_match; reflexivity.
Qed.

(** No redaction changes what Decrypt answers. *)
Lemma decrypt_ignores_redaction
    (v : engine_variant) (w : World) (rq : RedactRequest) (drq : DecryptionRequest) :
  answer (decrypt_endpoint (world_after (redact_endpoint v w rq)) drq)
  = answer (decrypt_endpoint w drq).
Proof.
  apply decrypt_answer_reads_dict.
  apply (redact_endpoint_db v w rq).
Qed.

(** The name stays unbound through every history: no endpoint binds it. *)
Lemma unbound_forever (evs : list event) (w : World) (drq : DecryptionRequest) :
  ENCRYPTED_DATA_STORE w = None ->
  answer (decrypt_endpoint (run evs w) drq)
  = Unhandled (Raise NameError "name 'ENCRYPTED_DATA_STORE' is not defined").
Proof.
  intros Hunbound. rewrite decrypt_raises_name_error; [reflexivity|].
  now rewrite run_data_store.
Qed.

(** When the store write fails, the only path scheduled for removal is
    the saved upload. *)
Lemma store_failure_schedules_upload_only
    (v : engine_variant) (w : World) (rq : RedactRequest) fs p md :
  open_wb_error (input_path_of rq) = None ->
  engine_run v w rq = (fs, Returned (p, md)) ->
  truthy md = true -> redis_up w = false ->
  background_tasks (redact_endpoint v w rq) = [[input_path_of rq]].
Proof.
  intros Hopen Hrun Ht Hup.
  redact_ends v w rq;
    cbn [background_tasks]; congruence.
Qed.

(** A redaction that responds schedules both the upload and the artifact. *)
Lemma response_schedules_both
    (v : engine_variant) (w : World) (rq : RedactRequest) (a : FileResponse) :
  answer (redact_endpoint v w rq) = Respond a ->
  background_tasks (redact_endpoint v w rq) = [[input_path_of rq; path a]].
Proof.
  intros Ha.
  redact_ends v w rq;
    cbn [background_tasks answer] in *; try discriminate;
    injection Ha as <-; reflexivity.
Qed.

(** A restoration that saved its upload schedules it, and a restoration
    that responds schedules the restored file as well. *)
Lemma restoration_schedules_its_files (w : World) (rq : UnredactRequest) :
  let o := unredact_endpoint w rq in
  (world_after o <> w -> scheduled o (temp_redacted_path_of rq))
  /\ (forall a, answer o = Respond a -> scheduled o (path a)).
Proof.
  intros o. subst o. unfold scheduled, temp_redacted_path_of.
  unredact_ends w rq;
    try (split; [intros Hne; now destruct Hne|discriminate]).
  - split; [|discriminate].
    intros _. eexists. split; [now left|now left].
  - split.
    + intros _. eexists. split; [now left|now left].
    + intros a [= <-]. eexists. split; [now left|right; now left].
Qed.

End Departures.

#[local] Existing Instance Demo.core.

(** C1.  The code at the failing input: the LLM and the classic redaction
    of a document with one sensitive text each answer with the identifier
    and the key and leave the session in the store, where a lookup finds
    it; Decrypt with that identifier and that key returns no item: the
    name it reads on line 122 is bound nowhere and the call dies with a
    [NameError]. *)
Theorem decrypt_misses_the_stored_session :
  forall v : engine_variant,
    let o := redact_endpoint v Demo.world0 Demo.redact1 in
    reply_headers (answer o)
    = [("X-Document-ID", "doc-1"); ("X-Decryption-Key", Demo.key1_b64)]%string
    /\ redis_client.get "doc-1" (world_after o) = Returned (Some (json_dumps Demo.md1))
    /\ answer (decrypt_endpoint (world_after o) (Demo.ask "doc-1" Demo.key1_b64))
       = Unhandled (Raise NameError "name 'ENCRYPTED_DATA_STORE' is not defined").
Proof.
  intros [|]; vm_compute; repeat split; reflexivity.
Qed.

(** C9.  The code at the failing input: the engine writes the redacted
    artifact, the store write raises, and the request ends with one
    scheduled task that removes the saved upload; the artifact, which did
    not exist before the request, stays and no task removes it. *)
Theorem artifact_left_behind_on_store_failure :
  forall v : engine_variant,
    let w := set_redis_up false Demo.world0 in
    let o := redact_endpoint v w Demo.redact1 in
    answer o = HTTPException 500 "An error occurred: Error connecting to Redis."
    /\ files w !! "redacted_files/redacted_u1_a.pdf"%string = None
    /\ files (world_after o) !! "redacted_files/redacted_u1_a.pdf"%string = Some []
    /\ background_tasks o = [["temp_uploads/u1_a.pdf"%string]]
    /\ ~ scheduled o "redacted_files/redacted_u1_a.pdf".
Proof.
  intros v w o.
  assert (Htasks : background_tasks o = [["temp_uploads/u1_a.pdf"%string]])
    by (destruct v; vm_compute; reflexivity).
  repeat split; try (destruct v; vm_compute; reflexivity).
  intros (task & Htask & Hp). rewrite Htasks in Htask.
  destruct Htask as [<-|[]]. destruct Hp as [Hp|[]]. discriminate.
Qed.

(** C2.  The code at the failing input.  Decrypt answers neither 403 nor
    400 to any key: from the state the service starts in, after a
    redaction by whatever engine and any further history, every Decrypt
    request dies with the [NameError] of line 122, which nothing catches.
    So it is for the session that a redaction has just stored, asked for
    with the encoding of another key or with a string that does not
    decode. *)
Theorem decrypt_dies_on_a_wrong_key :
  (forall (engine : Core) (v : engine_variant) (rq : RedactRequest)
          (evs : list event) (drq : DecryptionRequest),
      answer (decrypt_endpoint (H := engine)
                (run (H := engine) evs
                     (world_after (redact_endpoint (H := engine) v Demo.world0 rq)))
                drq)
      = Unhandled (Raise NameError "name 'ENCRYPTED_DATA_STORE' is not defined"))
  /\ (forall v : engine_variant,
        let w1 := world_after (redact_endpoint v Demo.world0 Demo.redact1) in
        redis_client.get "doc-1" w1 = Returned (Some (json_dumps Demo.md1))
        /\ base64.urlsafe_b64decode Demo.key2_b64 = Returned Demo.key2
        /\ Demo.key2 <> Demo.key1
        /\ answer (decrypt_endpoint w1 (Demo.ask "doc-1" Demo.key2_b64))
           = Unhandled (Raise NameError "name 'ENCRYPTED_DATA_STORE' is not defined")
        /\ base64.urlsafe_b64decode "aGVsbG8"
           = Raised (Raise BinasciiError "Incorrect padding")
        /\ answer (decrypt_endpoint w1 (Demo.ask "doc-1" "aGVsbG8"))
           = Unhandled (Raise NameError "name 'ENCRYPTED_DATA_STORE' is not defined")).
Proof.
  split.
  - intros engine v rq evs drq.
    apply (unbound_forever (H := engine)).
    now rewrite (proj1 (proj2 (redact_endpoint_db (H := engine) v Demo.world0 rq))).
  - intros v w1. subst w1.
    repeat split; try discriminate; destruct v; vm_compute; reflexivity.
Qed.



(** C5.  The code at the failing input.  The string [!!!!] encodes no key,
    and the string [QUJD] decodes to three bytes where keys have
    thirty-two; the decoder accepts both, so Restore, whatever the engine
    and the state of the service, never answers 400 to them: for a stored
    session it goes on to the engine with what they decode to, and the
    small instance then answers 500.  Decrypt dies with the [NameError] of
    line 122 on these strings as on every other. *)
Theorem malformed_key_passes_the_format_check :
  (forall key : bytes, encode_key key <> Returned "!!!!"%string)
  /\ base64.urlsafe_b64decode "!!!!" = Returned []
  /\ base64.urlsafe_b64decode "QUJD" = Returned (list_byte_of_string "ABC")
  /\ length Demo.key1 = 32%nat
  /\ (forall (engine : Core) (w : World) (f : UploadFile) (d u detail : str),
        answer (unredact_endpoint (H := engine) w
                  {| redacted_file := f; form_document_id := d;
                     form_decryption_key := "!!!!"; drawn_upload_uuid := u |})
        <> HTTPException 400 detail
        /\ answer (unredact_endpoint (H := engine) w
                     {| redacted_file := f; form_document_id := d;
                        form_decryption_key := "QUJD"; drawn_upload_uuid := u |})
           <> HTTPException 400 detail)
  /\ redis_client.get "doc-1" Demo.world1 = Returned (Some (json_dumps Demo.md1))
  /\ answer (unredact_endpoint Demo.world1 (Demo.restore "doc-1" "!!!!"))
     = HTTPException 500 "An error occurred during un-redaction: invalid token"
  /\ answer (unredact_endpoint Demo.world1 (Demo.restore "doc-1" "QUJD"))
     = HTTPException 500 "An error occurred during un-redaction: invalid token"
  /\ answer (decrypt_endpoint Demo.world1 (Demo.ask "doc-1" "QUJD"))
     = Unhandled (Raise NameError "name 'ENCRYPTED_DATA_STORE' is not defined").
Proof.
  split; [|split; [|split; [|split; [|split]]]].
  - intros key Hk. rewrite encode_key_returns in Hk. injection Hk as Hk.
    apply (f_equal list_byte_of_string) in Hk.
    rewrite list_byte_of_string_of_list_byte in Hk.
    pose proof (urlsafe_b64encode_chars key) as Hall.
    rewrite Hk in Hall. apply Forall_inv in Hall as [_ Hsafe].
    discriminate.
  - vm_compute. reflexivity.
  - vm_compute. reflexivity.
  - reflexivity.
  - intros engine w f d u detail. split.
    + apply (decodable_key_is_never_reported (H := engine)) with (key := []).
      vm_compute. reflexivity.
    + apply (decodable_key_is_never_reported (H := engine))
        with (key := list_byte_of_string "ABC").
      vm_compute. reflexivity.
  - vm_compute. repeat split; reflexivity.
Qed.

(** ** The theorems at concrete requests *)



Lemma session_expires_after_a_day_witness :
  answer (unredact_endpoint
            (run [Elapse 86400] (world_after (redact_endpoint LlmVision Demo.world0 Demo.redact1)))
            (Demo.restore "doc-1" Demo.key1_b64))
  = HTTPException 404 "Document ID not found or has expired."
  /\ answer (decrypt_endpoint
               (run [Elapse 86400]
                    (world_after (redact_endpoint LlmVision Demo.world0 Demo.redact1)))
               (Demo.ask "doc-1" Demo.key1_b64))
     = Unhandled (Raise NameError "name 'ENCRYPTED_DATA_STORE' is not defined").
Proof.
  pose proof (session_expires_after_a_day LlmVision Demo.world0 Demo.redact1 [Elapse 86400])
    as (_ & Hrestore & Hdecrypt).
  split.
  - refine (proj2 (Hrestore _ _ _ (Demo.restore "doc-1" Demo.key1_b64) _) _);
      vm_compute; try reflexivity.
    discriminate.
  - apply Hdecrypt. reflexivity.
Defined.


Lemma restore_rejects_before_writing_witness :
  answer (unredact_endpoint Demo.world0 (Demo.restore "doc-9" Demo.key1_b64))
  = HTTPException 404 "Document ID not found or has expired."
  /\ files (world_after (unredact_endpoint Demo.world0 (Demo.restore "doc-9" Demo.key1_b64)))
     = files Demo.world0.
Proof.
  assert (Ha : answer (unredact_endpoint Demo.world0 (Demo.restore "doc-9" Demo.key1_b64))
               = HTTPException 404 "Document ID not found or has expired.")
    by (vm_compute; reflexivity).
  split; [exact Ha|].
  apply (proj1 (restore_rejects_before_writing Demo.world0
                  (Demo.restore "doc-9" Demo.key1_b64))).
  exists "Document ID not found or has expired."%string. left. exact Ha.
Defined.

(** * Further properties of the code *)

(** ** [cleanup_files] and the background tasks *)

Lemma cleanup_files_keeps_absent (paths : list str) (fs : gmap string (list byte)) (p : str) :
  fs !! p = None -> cleanup_files paths fs !! p = None.
Proof.
  revert fs. induction paths as [|q paths IH]; intros fs Hp; [exact Hp|].
  cbn [cleanup_files]. destruct (fs !! q) eqn:Hq; apply IH; [|exact Hp].
  destruct (decide (q = p)) as [->|Hne].
  - apply lookup_delete_eq.
  - now rewrite lookup_delete_ne.
Qed.

Lemma cleanup_files_lookup (paths : list str) (fs : gmap string (list byte)) (p : str) :
  (In p paths -> cleanup_files paths fs !! p = None)
  /\ (~ In p paths -> cleanup_files paths fs !! p = fs !! p).
Proof.
  revert fs. induction paths as [|q paths IH]; intros fs.
  - split; [intros []|reflexivity].
  - cbn [cleanup_files]. split.
    + intros [->|Hin].
      * destruct (fs !! p) eqn:Hp.
        -- apply cleanup_files_keeps_absent, lookup_delete_eq.
        -- now apply cleanup_files_keeps_absent.
      * destruct (fs !! q); now apply IH.
    + intros Hnot.
      assert (Hne : q <> p) by (intros ->; apply Hnot; now left).
      assert (Hrest : ~ In p paths) by (intros Hin; apply Hnot; now right).
      destruct (fs !! q).
      * rewrite (proj2 (IH _) Hrest). now rewrite lookup_delete_ne.
      * now apply IH.
Qed.

(** X1.  [cleanup_files] removes every listed path, leaves every other
    path with its content, and takes a listed path that does not exist, or
    that is listed twice, without raising. *)
Theorem cleanup_files_removes_exactly (paths : list str)
        (fs : gmap string (list byte)) (p : str) :
  cleanup_files paths fs !! p = if existsb (String.eqb p) paths then None else fs !! p.
Proof.
  destruct (existsb (String.eqb p) paths) eqn:Hex.
  - apply existsb_exists in Hex as (q & Hq & Heq).
    apply String.eqb_eq in Heq. subst q.
    now apply cleanup_files_lookup.
  - apply cleanup_files_lookup. intros Hin.
    assert (existsb (String.eqb p) paths = true); [|congruence].
    apply existsb_exists. exists p. split; [exact Hin|apply String.eqb_refl].
Qed.

Lemma run_background_tasks_lookup (tasks : list (list str))
      (fs : gmap string (list byte)) (p : str) :
  ((exists task, In task tasks /\ In p task) -> run_background_tasks tasks fs !! p = None)
  /\ ((forall task, In task tasks -> ~ In p task) ->
      run_background_tasks tasks fs !! p = fs !! p).
Proof.
  unfold run_background_tasks.
  revert fs. induction tasks as [|t tasks IH]; intros fs; cbn [fold_left].
  - split; [intros (task & [] & _)|reflexivity].
  - split.
    + intros (task & [->|Hin] & Hp).
      * assert (Hgone : cleanup_files task fs !! p = None)
          by now apply cleanup_files_lookup.
        clear IH. revert Hgone. generalize (cleanup_files task fs).
        induction tasks as [|t' tasks IH']; intros fs' Hgone; cbn [fold_left]; [exact Hgone|].
        apply IH'. now apply cleanup_files_keeps_absent.
      * apply IH. eauto.
    + intros Hnot. rewrite (proj2 (IH _)).
      * apply cleanup_files_lookup. apply Hnot. now left.
      * intros task Hin. apply Hnot. now right.
Qed.

Section CleanupAfterResponse.

Context `{Core}.

Lemma restoration_response_schedules_both (w : World) (rq : UnredactRequest)
      (a : FileResponse) :
  answer (unredact_endpoint w rq) = Respond a ->
  background_tasks (unredact_endpoint w rq) = [[temp_redacted_path_of rq; path a]].
Proof.
  unfold temp_redacted_path_of.
  unredact_ends w rq; try discriminate.
  now intros [= <-].
Qed.

Lemma two_paths_removed (p1 p2 : str) (fs : gmap string (list byte)) :
  let fs' := run_background_tasks [[p1; p2]] fs in
  fs' !! p1 = None /\ fs' !! p2 = None
  /\ (forall p, p <> p1 -> p <> p2 -> fs' !! p = fs !! p).
Proof.
  intros fs'. subst fs'. repeat split.
  - apply run_background_tasks_lookup. exists [p1; p2]. split; now left.
  - apply run_background_tasks_lookup. exists [p1; p2].
    split; [now left|right; now left].
  - intros p Hp1 Hp2. apply run_background_tasks_lookup.
    intros task [<-|[]] [->|[->|[]]]; congruence.
Qed.

(** X2.  When a redaction has answered with a response and its background
    task has run, the saved upload and the redacted artifact are gone, and
    every other file is as the request left it. *)
Theorem redaction_cleans_up_after_response
    (v : engine_variant) (w : World) (rq : RedactRequest) (a : FileResponse) :
  answer (redact_endpoint v w rq) = Respond a ->
  let o := redact_endpoint v w rq in
  let fs' := run_background_tasks (background_tasks o) (files (world_after o)) in
  fs' !! input_path_of rq = None
  /\ fs' !! path a = None
  /\ (forall p, p <> input_path_of rq -> p <> path a ->
        fs' !! p = files (world_after o) !! p).
Proof.
  intros Ha o fs'. subst o fs'.
  rewrite (response_schedules_both v w rq a Ha).
  apply two_paths_removed.
Qed.

(** X3.  When a restoration has answered with a response and its
    background task has run, the saved upload and the restored file are
    gone, and every other file is as the request left it. *)
Theorem restoration_cleans_up_after_response
    (w : World) (rq : UnredactRequest) (a : FileResponse) :
  answer (unredact_endpoint w rq) = Respond a ->
  let o := unredact_endpoint w rq in
  let fs' := run_background_tasks (background_tasks o) (files (world_after o)) in
  fs' !! temp_redacted_path_of rq = None
  /\ fs' !! path a = None
  /\ (forall p, p <> temp_redacted_path_of rq -> p <> path a ->
        fs' !! p = files (world_after o) !! p).
Proof.
  intros Ha o fs'. subst o fs'.
  rewrite (restoration_response_schedules_both w rq a Ha).
  apply two_paths_removed.
Qed.

End CleanupAfterResponse.

(** ** Sessions in the store *)

Section Replies.

Context `{Core}.

(** X6.  A session stored by a redaction stays as written through every
    later request, cleanup, connection change and passing of time short of
    a redaction under the same identifier.  Until 86400 seconds have
    passed, a Restore with the returned identifier and key string, the
    store being reachable, goes on to save its upload.  When the upload
    cannot be opened for writing the exception escapes and nothing has
    changed; otherwise [unredact_document] is called on the saved upload
    with the generated key and the metadata the engine returned, and the
    reply is the restored file when that call returns, and status 500 with
    the message of the exception when it raises. *)
Theorem restore_within_a_day_reaches_the_engine
    (v : engine_variant) (w : World) (rq : RedactRequest)
    fs p (md : Metadata) (key_b64 : str) (evs : list event) (urq : UnredactRequest) :
  open_wb_error (input_path_of rq) = None ->
  engine_run v w rq = (fs, Returned (p, Some md)) ->
  truthy (Some md) = true ->
  redis_up w = true ->
  encode_key (drawn_key rq) = Returned key_b64 ->
  never_redacts_as (drawn_document_id rq) evs = true ->
  let later := run evs (world_after (redact_endpoint v w rq)) in
  clock later < clock w + 86400 ->
  redis_up later = true ->
  form_document_id urq = drawn_document_id rq ->
  form_decryption_key urq = key_b64 ->
  let temp := temp_redacted_path_of urq in
  let held := saved temp (redacted_file urq) later in
  let call := unredact_document (files held) temp (drawn_key rq) md in
  redis_db later !! drawn_document_id rq = Some (json_dumps md, clock w + 86400)
  /\ match open_wb_error temp with
     | Some e =>
         unredact_endpoint later urq
         = {| world_after := later; background_tasks := []; answer := Unhandled e |}
     | None =>
         world_after (unredact_endpoint later urq) = with_files (fst call) held
         /\ answer (unredact_endpoint later urq)
            = match snd call with
              | Returned restored_file_path =>
                  Respond {| path := restored_file_path;
                             media_type := content_type (redacted_file urq);
                             download_name :=
                               ("restored_"
                                ++ str_remove "redacted_"
                                     (filename (redacted_file urq)))%string;
                             headers := [] |}
              | Raised e =>
                  HTTPException 500
                    ("An error occurred during un-redaction: " ++ exn_msg e)
              end
     end.
Proof.
  intros Hopen Hengine Htruthy Hlive Henc Hevs later Hclock Hlater Hid Hkey temp held call.
  assert (Hentry : redis_db later !! drawn_document_id rq
                   = Some (json_dumps md, clock w + 86400)).
  { subst later. rewrite run_lookup by exact Hevs.
    redact_ends v w rq; cbn [world_after with_db redis_db]; try congruence.
    assert (md' = md) by congruence. subst md'. apply lookup_insert_eq. }
  split; [exact Hentry|].
  assert (Hdec : base64.urlsafe_b64decode key_b64 = Returned (drawn_key rq)).
  { rewrite encode_key_returns in Henc. injection Henc as <-.
    apply urlsafe_b64decode_encode. }
  subst call held temp.
  unfold unredact_endpoint, save_upload, redis_client.get.
  fold (temp_redacted_path_of urq).
  rewrite Hlater, Hid, Hentry, Hkey, Hdec.
  replace (clock later <? clock w + 86400) with true
    by (symmetry; apply N.ltb_lt; exact Hclock).
  cbn [json_loads].
  destruct (open_wb_error (temp_redacted_path_of urq)); [reflexivity|].
  destruct (unredact_document _ _ _ _) as [fs' [e|restored]]; split; reflexivity.
Qed.

(** X8.  A redaction touches the store at its own document identifier
    only: every other entry keeps its value and its instant of expiry, a
    lookup of another identifier answers as before, and the dict that
    Decrypt reads, the clock and the connection are as they were. *)
Theorem redaction_touches_one_entry
    (v : engine_variant) (w : World) (rq : RedactRequest) (d : str) :
  d <> drawn_document_id rq ->
  let w' := world_after (redact_endpoint v w rq) in
  redis_db w' !! d = redis_db w !! d
  /\ redis_client.get d w' = redis_client.get d w
  /\ ENCRYPTED_DATA_STORE w' = ENCRYPTED_DATA_STORE w
  /\ clock w' = clock w /\ redis_up w' = redis_up w.
Proof.
  intros Hne w'. subst w'.
  destruct (redact_endpoint_db v w rq) as (Hdb & Hdata & Hclock & Hup).
  assert (Hlook : redis_db (world_after (redact_endpoint v w rq)) !! d = redis_db w !! d).
  { destruct Hdb as [->|[md ->]]; [reflexivity|].
    rewrite lookup_insert_ne; [reflexivity|congruence]. }
  repeat split; auto.
  unfold redis_client.get. now rewrite Hup, Hclock, Hlook.
Qed.

Lemma step_all_due (ev : event) (w : World) :
  all_due_within_a_day w -> all_due_within_a_day (step ev w).
Proof.
  intros Hinv d value t.
  assert (Hredact : forall v rq,
             redis_db (world_after (redact_endpoint v w rq)) !! d = Some (value, t) ->
             t <= clock (world_after (redact_endpoint v w rq)) + 86400).
  { intros v rq.
    destruct (redact_endpoint_db v w rq) as (Hdb & _ & -> & _).
    destruct Hdb as [->|[md ->]]; [apply Hinv|].
    destruct (decide (drawn_document_id rq = d)) as [->|Hne].
    - rewrite lookup_insert_eq. intros [= _ <-]. lia.
    - rewrite lookup_insert_ne by exact Hne. apply Hinv. }
  destruct ev as [dt|up|rq|rq|rq|rq|paths]; cbn [step].
  - cbn. intros Hd. apply Hinv in Hd. lia.
  - cbn. apply Hinv.
  - apply (Hredact LlmVision rq).
  - apply (Hredact Classic rq).
  - rewrite (proj1 (decrypt_endpoint_pure w rq)). apply Hinv.
  - destruct (unredact_endpoint_stores w rq) as (-> & _ & -> & _). apply Hinv.
  - cbn. apply Hinv.
Qed.

(** X9.  No session outlives a day: if every entry of the store is due
    within 86400 seconds, as in an empty store, this stays so through
    every history of requests, cleanups, connection changes and elapsed
    time; so 86400 seconds after any such history every Restore, the store
    being reachable, answers 404. *)
Theorem no_session_outlives_a_day (w : World) (evs : list event) :
  all_due_within_a_day w ->
  all_due_within_a_day (run evs w)
  /\ (forall urq,
        redis_up (run evs w) = true ->
        answer (unredact_endpoint (elapse 86400 (run evs w)) urq)
        = HTTPException 404 "Document ID not found or has expired.").
Proof.
  intros Hinv.
  assert (Hrun : all_due_within_a_day (run evs w)).
  { revert w Hinv. induction evs as [|ev evs IH]; intros w Hinv; [exact Hinv|].
    cbn [run]. apply IH. now apply step_all_due. }
  split; [exact Hrun|].
  intros urq Hup. rewrite unredact_not_found; [reflexivity|exact Hup|].
  unfold absent_or_expired. cbn [elapse redis_db clock].
  destruct (redis_db (run evs w) !! form_document_id urq) as [[value t]|] eqn:Hd;
    [|exact I].
  exact (Hrun _ _ _ Hd).
Qed.

End Replies.

(** ** Key strings, as the decoder reads them *)

Lemma a2b_loop_skips (l : bytes) :
  forall quad_pos leftchar pads out,
    binascii.a2b_loop (List.filter data_or_pad l) quad_pos leftchar pads out
    = binascii.a2b_loop l quad_pos leftchar pads out.
Proof.
  induction l as [|c l IH]; intros quad_pos leftchar pads out; [reflexivity|].
  cbn [List.filter]. unfold data_or_pad.
  destruct (Byte.eqb c binascii.BASE64_PAD) eqn:Hpad; cbn [orb].
  - cbn [binascii.a2b_loop]. rewrite Hpad.
    repeat case_match; try reflexivity; apply IH.
  - destruct (binascii.table_a2b_base64 c) as [v|] eqn:Hv.
    + cbn [binascii.a2b_loop]. rewrite Hpad, Hv.
      repeat case_match; apply IH.
    + cbn [binascii.a2b_loop]. rewrite Hpad, Hv. apply IH.
Qed.

Lemma urlsafe_b64decode_significant (key_b64 : str) (kept : bytes) :
  significant key_b64 = Returned kept ->
  base64.urlsafe_b64decode key_b64 = binascii.a2b_base64 kept.
Proof.
  unfold significant, base64.urlsafe_b64decode, base64.b64decode, binascii.a2b_base64.
  destruct (encode_ascii key_b64) as [e|bs]; [discriminate|].
  intros [= <-]. symmetry. apply a2b_loop_skips.
Qed.

(** X10.  Two ASCII key strings that agree once [-] and [_] are read as
    [+] and [/] and the characters outside the alphabet and padding are
    left out decode alike, so Decrypt and Restore cannot tell them apart:
    each request gets the same reply and has the same effects under either
    string. *)
Theorem key_strings_agree_up_to_skipped_characters `{Core}
    (s1 s2 : str) (kept : bytes) :
  significant s1 = Returned kept ->
  significant s2 = Returned kept ->
  base64.urlsafe_b64decode s1 = base64.urlsafe_b64decode s2
  /\ (forall w d,
        decrypt_endpoint w {| document_id := d; decryption_key := s1 |}
        = decrypt_endpoint w {| document_id := d; decryption_key := s2 |})
  /\ (forall w f d u,
        unredact_endpoint w {| redacted_file := f; form_document_id := d;
                               form_decryption_key := s1; drawn_upload_uuid := u |}
        = unredact_endpoint w {| redacted_file := f; form_document_id := d;
                                 form_decryption_key := s2; drawn_upload_uuid := u |}).
Proof.
  intros H1 H2.
  assert (Hdec : base64.urlsafe_b64decode s1 = base64.urlsafe_b64decode s2).
  { rewrite (urlsafe_b64decode_significant s1 kept H1).
    now rewrite (urlsafe_b64decode_significant s2 kept H2). }
  split; [exact Hdec|]. split.
  - intros w d. unfold decrypt_endpoint. cbn [document_id decryption_key].
    now rewrite Hdec.
  - intros w f d u. unfold unredact_endpoint.
    cbn [redacted_file form_document_id form_decryption_key drawn_upload_uuid].
    now rewrite Hdec.
Qed.

(** ** Paths and names *)

Lemma append_cons (c : ascii) (s t : str) :
  (String c s ++ t)%string = String c (s ++ t)%string.
Proof. reflexivity. Qed.

Lemma append_nil (t : str) : ("" ++ t)%string = t.
Proof. reflexivity. Qed.





Lemma prefix_append (p s : str) : String.prefix p (p ++ s) = true.
Proof.
  induction p as [|c p IH]; [now destruct s|].
  rewrite append_cons. cbn [String.prefix].
  destruct (ascii_dec c c); [exact IH|congruence].
Qed.






(** The upload named [dir/a.pdf]: [open] finds no directory
    [temp_uploads/u4_dir], the redaction dies before the engine is called
    and nothing is written. *)
Example upload_with_slash_dies :
  forall v : engine_variant,
    redact_endpoint (H := Demo.core) v Demo.world0 Demo.redact_nested
    = {| world_after := Demo.world0; background_tasks := [];
         answer := Unhandled (Raise OSError "No such file or directory") |}.
Proof.
  intros [|]; vm_compute; reflexivity.
Qed.


Lemma remove_all_from_skips (old u s : str) :
  remove_all_from old (u ++ s) (String.length u) = remove_all_from old s O.
Proof.
  induction u as [|c u IH]; [now rewrite append_nil|].
  rewrite append_cons. cbn [String.length remove_all_from]. exact IH.
Qed.

Lemma str_remove_leading (old s : str) :
  old <> ""%string -> str_remove old (old ++ s) = str_remove old s.
Proof.
  unfold str_remove. destruct old as [|c old]; [congruence|]. intros _.
  pose proof (prefix_append (String c old) s) as Hpre.
  rewrite append_cons in *. cbn [remove_all_from].
  unfold starts_with. rewrite Hpre. cbn [String.length Nat.pred].
  apply remove_all_from_skips.
Qed.

Lemma str_remove_absent (old s : str) :
  contains old s = false -> str_remove old s = s.
Proof.
  unfold str_remove. induction s as [|c s IH]; [reflexivity|].
  cbn [contains]. intros Hno. apply orb_false_iff in Hno as [Hhere Hrest].
  cbn [remove_all_from]. rewrite Hhere. now rewrite IH.
Qed.

(** X12.  The name a restoration gives the download is [restored_]
    followed by the name of the uploaded file with its leading [redacted_]
    taken off; a name in which [redacted_] does not occur is kept whole. *)
Theorem restored_download_name `{Core}
    (w : World) (rq : UnredactRequest) (a : FileResponse) (name : str) :
  answer (unredact_endpoint w rq) = Respond a ->
  contains "redacted_" name = false ->
  (filename (redacted_file rq) = ("redacted_" ++ name)%string ->
   download_name a = ("restored_" ++ name)%string)
  /\ (filename (redacted_file rq) = name ->
      download_name a = ("restored_" ++ name)%string).
Proof.
  intros Ha Hname.
  assert (Hdl : download_name a
                = ("restored_" ++ str_remove "redacted_" (filename (redacted_file rq)))%string).
  { revert Ha. unredact_ends w rq; try discriminate.
    now intros [= <-]. }
  rewrite Hdl. split; intros ->.
  - rewrite str_remove_leading by discriminate. now rewrite str_remove_absent.
  - now rewrite str_remove_absent.
Qed.

(** ** The further properties at concrete requests *)

Lemma redaction_cleans_up_after_response_witness :
  run_background_tasks
    (background_tasks (redact_endpoint LlmVision Demo.world0 Demo.redact1))
    (files (world_after (redact_endpoint LlmVision Demo.world0 Demo.redact1)))
    !! "temp_uploads/u1_a.pdf"%string = None.
Proof.
  assert (Ha : answer (redact_endpoint LlmVision Demo.world0 Demo.redact1)
               = Respond {| path := "redacted_files/redacted_u1_a.pdf";
                            media_type := "application/pdf";
                            download_name := "redacted_u1_a.pdf";
                            headers := [("X-Document-ID", "doc-1");
                                        ("X-Decryption-Key", Demo.key1_b64)]%string |})
    by (vm_compute; reflexivity).
  exact (proj1 (redaction_cleans_up_after_response
                  LlmVision Demo.world0 Demo.redact1 _ Ha)).
Defined.

Lemma restoration_cleans_up_after_response_witness :
  run_background_tasks
    (background_tasks (unredact_endpoint Demo.world1 (Demo.restore "doc-1" Demo.key1_b64)))
    (files (world_after
              (unredact_endpoint Demo.world1 (Demo.restore "doc-1" Demo.key1_b64))))
    !! "redacted_files/restored_u3_redacted_u1_a.pdf"%string = None.
Proof.
  assert (Ha : answer (unredact_endpoint Demo.world1 (Demo.restore "doc-1" Demo.key1_b64))
               = Respond {| path := "redacted_files/restored_u3_redacted_u1_a.pdf";
                            media_type := "application/pdf";
                            download_name := "restored_u1_a.pdf";
                            headers := [] |})
    by (vm_compute; reflexivity).
  exact (proj1 (proj2 (restoration_cleans_up_after_response
                         Demo.world1 (Demo.restore "doc-1" Demo.key1_b64) _ Ha))).
Defined.

Lemma restore_within_a_day_reaches_the_engine_witness :
  redis_db (run [Elapse 100; Decrypt (Demo.ask "doc-1" Demo.key1_b64)]
                (world_after (redact_endpoint LlmVision Demo.world0 Demo.redact1)))
    !! "doc-1"%string
  = Some (json_dumps Demo.md1, 87400).
Proof.
  refine (proj1 (restore_within_a_day_reaches_the_engine
                   LlmVision Demo.world0 Demo.redact1
                   (fst (engine_run LlmVision Demo.world0 Demo.redact1))
                   "redacted_files/redacted_u1_a.pdf" Demo.md1 Demo.key1_b64
                   [Elapse 100; Decrypt (Demo.ask "doc-1" Demo.key1_b64)]
                   (Demo.restore "doc-1" Demo.key1_b64)
                   _ _ _ _ _ _ _ _ _ _));
    vm_compute; reflexivity.
Defined.

Lemma redaction_touches_one_entry_witness :
  redis_client.get "doc-1"
    (world_after (redact_endpoint Classic Demo.world1 Demo.redact_empty))
  = redis_client.get "doc-1" Demo.world1.
Proof.
  refine (proj1 (proj2 (redaction_touches_one_entry
                          Classic Demo.world1 Demo.redact_empty "doc-1" _))).
  vm_compute. discriminate.
Defined.

Lemma no_session_outlives_a_day_witness :
  all_due_within_a_day Demo.world0
  /\ answer (unredact_endpoint
               (elapse 86400 (run [RedactLlm Demo.redact1] Demo.world0))
               (Demo.restore "doc-1" Demo.key1_b64))
     = HTTPException 404 "Document ID not found or has expired.".
Proof.
  assert (Hempty : all_due_within_a_day Demo.world0).
  { intros d value t Hd. cbn in Hd. rewrite lookup_empty in Hd. discriminate. }
  split; [exact Hempty|].
  apply (proj2 (no_session_outlives_a_day Demo.world0 [RedactLlm Demo.redact1] Hempty)).
  vm_compute. reflexivity.
Defined.

Lemma key_strings_agree_up_to_skipped_characters_witness :
  base64.urlsafe_b64decode Demo.key1_b64
  = base64.urlsafe_b64decode ("MDEy MzQ1Njc4OWFiY2Rl!ZjAxMjM0NTY3ODlhYmNkZWY=").
Proof.
  refine (proj1 (key_strings_agree_up_to_skipped_characters
                   Demo.key1_b64 "MDEy MzQ1Njc4OWFiY2Rl!ZjAxMjM0NTY3ODlhYmNkZWY="
                   (list_byte_of_string Demo.key1_b64) _ _));
    vm_compute; reflexivity.
Defined.


Lemma restored_download_name_witness :
  answer (unredact_endpoint Demo.world1 (Demo.restore "doc-1" Demo.key1_b64))
  = Respond {| path := "redacted_files/restored_u3_redacted_u1_a.pdf";
               media_type := "application/pdf";
               download_name := "restored_u1_a.pdf";
               headers := [] |}
  /\ contains "redacted_" "u1_a.pdf" = false
  /\ download_name {| path := "redacted_files/restored_u3_redacted_u1_a.pdf";
                      media_type := "application/pdf";
                      download_name := "restored_u1_a.pdf";
                      headers := [] |}
     = "restored_u1_a.pdf"%string.
Proof.
  assert (Ha : answer (unredact_endpoint Demo.world1 (Demo.restore "doc-1" Demo.key1_b64))
               = Respond {| path := "redacted_files/restored_u3_redacted_u1_a.pdf";
                            media_type := "application/pdf";
                            download_name := "restored_u1_a.pdf";
                            headers := [] |})
    by (vm_compute; reflexivity).
  assert (Hname : contains "redacted_" "u1_a.pdf" = false) by (vm_compute; reflexivity).
  split; [exact Ha|]. split; [exact Hname|].
  refine (proj1 (restored_download_name
                   Demo.world1 (Demo.restore "doc-1" Demo.key1_b64) _ "u1_a.pdf"
                   Ha Hname) _).
  vm_compute. reflexivity.
Defined.
